(** * server.py: a single-endpoint proxy in front of the Leonardo image API

    A shallow embedding of [src/server.py].  The handler [generate] is
    written in a small trace-and-exception monad so that the model keeps the
    two nested [try]/[except] blocks, the early [return]s and the bounded
    [for _ in range(30)] poll loop of the Python text.  Values travelling
    through the handler are dynamically typed JSON values, as in Python. *)

From Stdlib Require Import String Ascii List ZArith Bool Lia.
From Stdlib Require Import Floats.SpecFloat.
Import ListNotations.
Local Open Scope string_scope.
Local Open Scope list_scope.
Set Warnings "-register-all".

(** ** JSON values, as [json.loads] builds them *)

(** Python [int] is unbounded ([Z]); a JSON number with a fraction or an
    exponent becomes a binary64 [float].  A [dict] is kept as an association
    list in which the first binding of a key is the live one. *)
Inductive json : Type :=
| JNull
| JBool (b : bool)
| JInt (n : Z)
| JFloat (x : spec_float)
| JStr (s : string)
| JArr (items : list json)
| JObj (fields : list (string * json)).

(** ** Exceptions *)

Inductive exn : Type :=
| KeyError (key : json)
| IndexError
| TypeError (operand : json)
| AttributeError (obj : json) (attr : string)
| HTTPNotFound
| HTTPMethodNotAllowed (method : string) (allowed : list string)
| RuntimeFault (msg : string).
(* [RuntimeFault] stands for whatever a library raises on its own: the
   aiohttp client on a transport failure, the JSON decoder on bad text,
   [open] on a missing file. *)

(** ** What the interpreter and the process environment supply *)

Record runtime : Type := {
  LEONARDO_API_KEY : option string;      (* os.getenv('LEONARDO_API_KEY') *)
  json_loads : string -> exn + json;     (* json.loads *)
  py_str : json -> string;               (* str(v) for a value that is not a str *)
  exn_str : exn -> string                (* str(e) *)
}.

(** ** Python operations on dynamically typed values *)

Definition py_truthy (v : json) : bool :=
  match v with
  | JNull => false
  | JBool b => b
  | JInt n => negb (Z.eqb n 0)
  | JFloat (S754_zero _) => false
  | JFloat _ => true
  | JStr s => negb (String.eqb s "")
  | JArr items => match items with [] => false | _ :: _ => true end
  | JObj fields => match fields with [] => false | _ :: _ => true end
  end.

(* [a or b] *)
Definition py_or (a b : json) : json := if py_truthy a then a else b.

Fixpoint assoc {V : Type} (k : string) (d : list (string * V)) : option V :=
  match d with
  | [] => None
  | (k', v) :: d' => if String.eqb k k' then Some v else assoc k d'
  end.

(* [data.get(key, default)]: only a dict has the method. *)
Definition py_get (data : json) (key : string) (default : json) : exn + json :=
  match data with
  | JObj fields =>
      inr (match assoc key fields with Some v => v | None => default end)
  | _ => inl (AttributeError data "get")
  end.

(* [v[key]] with a str key. *)
Definition getitem (v : json) (key : string) : exn + json :=
  match v with
  | JObj fields =>
      match assoc key fields with
      | Some x => inr x
      | None => inl (KeyError (JStr key))
      end
  | _ => inl (TypeError v)
  end.

(* [v[0]].  The keys of a decoded dict are all str, so 0 is never one. *)
Definition getitem0 (v : json) : exn + json :=
  match v with
  | JArr (x :: _) => inr x
  | JArr [] => inl IndexError
  | JStr (String c _) => inr (JStr (String c EmptyString))
  | JStr EmptyString => inl IndexError
  | JObj _ => inl (KeyError (JInt 0))
  | _ => inl (TypeError v)
  end.

(* [v == s] for a str literal [s]. *)
Definition py_eq_str (v : json) (s : string) : bool :=
  match v with
  | JStr t => String.eqb t s
  | _ => false
  end.

(* [{v}] inside an f-string. *)
Definition format_value (rt : runtime) (v : json) : string :=
  match v with
  | JStr s => s
  | _ => py_str rt v
  end.

Definition format_key (k : option string) : string :=
  match k with
  | Some s => s
  | None => "None"
  end.

(** ** Module constants *)

Definition nl : string := String "010"%char EmptyString.

Definition LEONARDO_BASE_URL : string := "https://cloud.leonardo.ai/api/rest/v1".

Definition ART_STYLE_PROMPTS : list (string * string) :=
  [ ("pixel",
     ("16-bit pixel art style, retro gaming aesthetic, clean pixelated edges,"
       ++ nl ++
     "        reminiscent of classic video games, limited color palette, sharp pixels")%string);
    ("anime",
     ("anime art style, manga-inspired, cel-shaded, vibrant colors,"
       ++ nl ++
     "        kawaii aesthetic, clean linework, anime character design")%string);
    ("3d",
     ("3D rendered style, volumetric lighting, subsurface scattering,"
       ++ nl ++
     "        realistic textures, ambient occlusion, ray-traced reflections")%string);
    ("minimalist",
     ("minimalist design, clean lines, simple shapes,"
       ++ nl ++
     "        limited color palette, negative space, geometric composition")%string);
    ("cartoon",
     ("cartoon style, bold outlines, vibrant colors,"
       ++ nl ++
     "        exaggerated features, playful design, smooth shading")%string);
    ("realistic",
     ("realistic digital painting, detailed textures,"
       ++ nl ++
     "        professional illustration, photorealistic elements, detailed shading")%string) ].

(* [ART_STYLE_PROMPTS[key]] *)
Definition style_getitem (key : string) : exn + string :=
  match assoc key ART_STYLE_PROMPTS with
  | Some d => inr d
  | None => inl (KeyError (JStr key))
  end.

(* [ART_STYLE_PROMPTS.get(key, default)]: the key is hashed first, and a
   list or a dict has no hash.  No other JSON value equals a str key. *)
Definition style_get (key : json) (default : string) : exn + string :=
  match key with
  | JStr s =>
      inr (match assoc s ART_STYLE_PROMPTS with Some d => d | None => default end)
  | JArr _ | JObj _ => inl (TypeError key)
  | _ => inr default
  end.

(** ** HTTP messages *)

(* An incoming request; [req_json] is the outcome of [await request.json()]. *)
Record request : Type := {
  req_method : string;
  req_path : string;
  req_json : exn + json
}.

Inductive body : Type :=
| NoBody
| TextBody (text : string)
| JsonBody (data : json).       (* text = json.dumps(data) *)

Record response : Type := {
  status : Z;
  content_type : string;
  headers : list (string * string);
  resp_body : body
}.

(* [web.Response()] *)
Definition web_Response_empty : response :=
  {| status := 200; content_type := "application/octet-stream";
     headers := []; resp_body := NoBody |}.

(* [web.Response(text=..., status=..., content_type=...)] *)
Definition web_Response (text : string) (st : Z) (ct : string) : response :=
  {| status := st; content_type := ct; headers := []; resp_body := TextBody text |}.

(* [web.json_response(data, status=...)] *)
Definition json_response (data : json) (st : Z) : response :=
  {| status := st; content_type := "application/json";
     headers := []; resp_body := JsonBody data |}.

(* Header names compare without regard to letter case: [response.headers]
   is a CIMultiDict. *)
Definition lower_ascii (c : ascii) : ascii :=
  let n := nat_of_ascii c in
  if Nat.leb 65 n && Nat.leb n 90 then ascii_of_nat (n + 32) else c.

Fixpoint lower (s : string) : string :=
  match s with
  | EmptyString => EmptyString
  | String c s' => String (lower_ascii c) (lower s')
  end.

Definition ci_eqb (a b : string) : bool := String.eqb (lower a) (lower b).

Definition remove_header (k : string) (hs : list (string * string))
  : list (string * string) :=
  filter (fun kv => negb (ci_eqb k (fst kv))) hs.

(* [response.headers[k] = v]: the first entry of that name is replaced in
   place and any further ones are dropped; without one, the pair is
   appended. *)
Fixpoint set_header (k v : string) (hs : list (string * string))
  : list (string * string) :=
  match hs with
  | [] => [(k, v)]
  | (k', v') :: hs' =>
      if ci_eqb k k' then (k, v) :: remove_header k hs'
      else (k', v') :: set_header k v hs'
  end.

Definition with_header (k v : string) (r : response) : response :=
  {| status := status r; content_type := content_type r;
     headers := set_header k v (headers r); resp_body := resp_body r |}.

(** ** The remote API and the file system, seen from the handler *)

(* One outbound request of the aiohttp client session. *)
Record http_call : Type := {
  call_url : string;
  call_headers : list (string * string);
  call_json : option json
}.

(* The client's response object: [.status], [await .text()], [await .json()]. *)
Record client_response : Type := {
  cr_status : Z;
  cr_text : exn + string;
  cr_json : exn + json
}.

(* The remote answers the submission from its content, and the n-th status
   query (counted from 0) from n and its content.  [inl] is an exception
   raised by the client instead of a response. *)
Record world : Type := {
  index_html : exn + string;               (* open('index.html').read() *)
  on_post : http_call -> exn + client_response;
  on_get : nat -> http_call -> exn + client_response
}.

Inductive event : Type :=
| EPost (c : http_call)
| EGet (c : http_call)
| ESleep (seconds : Z).

(** ** A monad of traces and exceptions *)

Definition M (A : Type) : Type := (list event * (exn + A))%type.

Definition ret {A : Type} (a : A) : M A := ([], inr a).
Definition raise {A : Type} (e : exn) : M A := ([], inl e).
Definition lift {A : Type} (r : exn + A) : M A := ([], r).
Definition emit (ev : event) : M unit := ([ev], inr tt).

Definition bind {A B : Type} (m : M A) (f : A -> M B) : M B :=
  match m with
  | (t, inl e) => (t, inl e)
  | (t, inr a) => let '(t', r) := f a in (t ++ t', r)
  end.

(* [try: m  except Exception as e: h e] *)
Definition try_except {A : Type} (m : M A) (h : exn -> M A) : M A :=
  match m with
  | (t, inl e) => let '(t', r) := h e in (t ++ t', r)
  | (t, inr a) => (t, inr a)
  end.

Declare Scope py_scope.
Delimit Scope py_scope with py.
Notation "x <- m ;; k" := (bind m (fun x => k))
  (at level 61, m at next level, right associativity) : py_scope.
Notation "m ;;; k" := (bind m (fun _ => k))
  (at level 61, right associativity) : py_scope.
Local Open Scope py_scope.

Definition trace {A : Type} (m : M A) : list event := fst m.
Definition result {A : Type} (m : M A) : exn + A := snd m.

(** ** Client-session calls *)

(* [session.post(url, headers=..., json=...)] *)
Definition session_post (w : world) (c : http_call) : M client_response :=
  (_ <- emit (EPost c) ;; lift (on_post w c)).

(* [session.get(url, headers=...)], the n-th status query of this request. *)
Definition session_get (w : world) (n : nat) (c : http_call) : M client_response :=
  (_ <- emit (EGet c) ;; lift (on_get w n c)).

(* [await web.asyncio.sleep(1)] *)
Definition sleep (seconds : Z) : M unit := emit (ESleep seconds).

(** ** The handlers *)

Section Handlers.

Variable rt : runtime.
Variable w : world.

(* @routes.get('/') *)
Definition serve_html (_ : request) : M response :=
  try_except
    (text <- lift (index_html w) ;;
     ret (web_Response text 200 "text/html"))
    (fun e => ret (web_Response (exn_str rt e) 500 "text/plain")).

(* @routes.get('/ping') *)
Definition ping (_ : request) : M response :=
  ret (json_response
         (JObj [("status", JStr "ok"); ("message", JStr "Server is running")]) 200).

(* @routes.post('/api/test') *)
Definition test (_ : request) : M response :=
  ret (json_response
         (JObj [("status", JStr "success"); ("message", JStr "Test successful")]) 200).

(* The f-string of lines 66-69. *)
Definition base_prompt_of (subject style_prompt : string) : string :=
  "detailed cryptocurrency mascot logo of a " ++ subject ++ "," ++ nl ++
  "            " ++ style_prompt ++ "," ++ nl ++
  "            centered composition, clean vectorized style," ++ nl ++
  "            suitable for crypto token, professional logo design".

Definition api_headers : list (string * string) :=
  [ ("accept", "application/json");
    ("authorization", ("Bearer " ++ format_key (LEONARDO_API_KEY rt))%string);
    ("content-type", "application/json") ].

(* 0.4 as a binary64: 7205759403792794 * 2^-54 *)
Definition float_0_4 : spec_float := S754_finite false 7205759403792794 (-54).

Definition payload_of (base_prompt : string) : json :=
  JObj [ ("height", JInt 512);
         ("width", JInt 512);
         ("prompt", JStr base_prompt);
         ("modelId", JStr "6bef9f1b-29cb-40c7-b9df-32b51c1f67d3");
         ("negative_prompt",
          JStr "text, watermark, logo, words, letters, signature, realistic, photographic, abstract shapes, blurry, low quality");
         ("num_images", JInt 1);
         ("guidance_scale", JInt 8);
         ("init_strength", JFloat float_0_4) ].

Definition submit_call (base_prompt : string) : http_call :=
  {| call_url := (LEONARDO_BASE_URL ++ "/generations")%string;
     call_headers := api_headers;
     call_json := Some (payload_of base_prompt) |}.

Definition status_call (generation_id : json) : http_call :=
  {| call_url :=
       (LEONARDO_BASE_URL ++ "/generations/" ++ format_value rt generation_id)%string;
     call_headers := api_headers;
     call_json := None |}.

(* Lines 114-125, one pass through the body of the [async with]:
   [Some r] when the [return] of line 122 is reached, [None] when control
   falls out of the block. *)
Definition poll_attempt (generation_id : json) (n : nat) : M (option response) :=
  (check_response <- session_get w n (status_call generation_id) ;;
   if Z.eqb (cr_status check_response) 200 then
     (result <- lift (cr_json check_response) ;;
      by_pk <- lift (getitem result "generations_by_pk") ;;
      st <- lift (getitem by_pk "status") ;;
      if py_eq_str st "COMPLETE" then
        (by_pk' <- lift (getitem result "generations_by_pk") ;;
         images <- lift (getitem by_pk' "generated_images") ;;
         image <- lift (getitem0 images) ;;
         image_url <- lift (getitem image "url") ;;
         ret (Some (json_response
                      (JObj [("success", JBool true); ("imageUrl", image_url)]) 200)))
      else ret None)
   else ret None).

(* Lines 113-128: [for _ in range(30)] followed by the timeout response. *)
Fixpoint poll_loop (generation_id : json) (attempts : list nat) : M response :=
  match attempts with
  | [] =>
      ret (json_response (JObj [("error", JStr "Timeout waiting for image")]) 500)
  | n :: attempts' =>
      (returned <- poll_attempt generation_id n ;;
       match returned with
       | Some r => ret r
       | None => (_ <- sleep 1 ;; poll_loop generation_id attempts')
       end)
  end.

(* Lines 88-135, the inner [try]. *)
Definition call_api (base_prompt : string) : M response :=
  try_except
    (response <- session_post w (submit_call base_prompt) ;;
     response_text <- lift (cr_text response) ;;
     if negb (Z.eqb (cr_status response) 200) then
       ret (json_response
              (JObj [("error", JStr ("Failed to generate image: " ++ response_text)%string)])
              (cr_status response))
     else
       (generation_data <- lift (json_loads rt response_text) ;;
        job <- lift (getitem generation_data "sdGenerationJob") ;;
        generation_id <- lift (getitem job "generationId") ;;
        poll_loop generation_id (seq 0 30)))
    (fun api_error =>
       ret (json_response
              (JObj [("error", JStr ("API request failed: " ++ exn_str rt api_error)%string)])
              500)).

(* @routes.post('/api/generate') *)
Definition generate (req : request) : M response :=
  try_except
    (data <- lift (req_json req) ;;
     idea <- lift (py_get data "idea" JNull) ;;
     generated_name <- lift (py_get data "generatedName" (JStr "")) ;;
     is_regeneration <- lift (py_get data "isRegeneration" (JBool false)) ;;
     art_style <- lift (py_get data "artStyle" (JStr "pixel")) ;;
     if negb (py_truthy idea) then
       ret (json_response (JObj [("error", JStr "No idea provided")]) 400)
     else
       (pixel <- lift (style_getitem "pixel") ;;
        style_prompt <- lift (style_get art_style pixel) ;;
        let base_prompt :=
          base_prompt_of (format_value rt (py_or generated_name idea)) style_prompt in
        call_api base_prompt))
    (fun e => ret (json_response (JObj [("error", JStr (exn_str rt e))]) 500)).

(** ** The application: routes and the CORS middleware *)

(* Lines 146-157.  An exception of the wrapped handler leaves
   [middleware_handler] before the three header assignments. *)
Definition cors_middleware (handler : request -> M response) (req : request)
  : M response :=
  (response <- (if String.eqb (req_method req) "OPTIONS"
                then ret web_Response_empty
                else handler req) ;;
   let response := with_header "Access-Control-Allow-Origin" "*" response in
   let response :=
     with_header "Access-Control-Allow-Methods" "GET, POST, OPTIONS" response in
   let response := with_header "Access-Control-Allow-Headers" "Content-Type" response in
   ret response).

(* The route table built by the four decorators.  aiohttp registers HEAD
   next to every GET route. *)
Definition routes : list (string * string * (request -> M response)) :=
  [ ("HEAD", "/", serve_html); ("GET", "/", serve_html);
    ("HEAD", "/ping", ping); ("GET", "/ping", ping);
    ("POST", "/api/test", test);
    ("POST", "/api/generate", generate) ].

Definition route_path (r : string * string * (request -> M response)) : string :=
  snd (fst r).
Definition route_method (r : string * string * (request -> M response)) : string :=
  fst (fst r).

(* aiohttp's resolver: a request that matches no route gets a handler that
   raises HTTPNotFound, or HTTPMethodNotAllowed when only the method is
   wrong. *)
Definition resolve (req : request) : request -> M response :=
  let same_path := filter (fun r => String.eqb (route_path r) (req_path req)) routes in
  match find (fun r => String.eqb (route_method r) (req_method req)) same_path with
  | Some r => snd r
  | None =>
      match same_path with
      | [] => fun _ => raise HTTPNotFound
      | _ :: _ =>
          fun _ => raise (HTTPMethodNotAllowed (req_method req)
                            (map route_method same_path))
      end
  end.

(* [sorted(methods)] *)
Fixpoint insert_sorted (m : string) (ms : list string) : list string :=
  match ms with
  | [] => [m]
  | m' :: ms' => if String.leb m m' then m :: ms else m' :: insert_sorted m ms'
  end.

Definition sorted_methods (ms : list string) : list string :=
  fold_right insert_sorted [] ms.

(* The response aiohttp sends for an exception that leaves the middleware
   chain: the HTTP exception itself (a 405 lists the allowed methods in
   sorted order), else a bare 500. *)
Definition exception_response (e : exn) : response :=
  match e with
  | HTTPNotFound => web_Response "404: Not Found" 404 "text/plain"
  | HTTPMethodNotAllowed _ allowed =>
      with_header "Allow" (String.concat "," (sorted_methods allowed))
        (web_Response "405: Method Not Allowed" 405 "text/plain")
  | _ => web_Response "500 Internal Server Error" 500 "text/plain"
  end.

(* init_app: one request through the middleware and the resolved handler. *)
Definition app (req : request) : response * list event :=
  match cors_middleware (resolve req) req with
  | (t, inr r) => (r, t)
  | (t, inl e) => (exception_response e, t)
  end.

End Handlers.

Arguments base_prompt_of : simpl never.
Arguments payload_of : simpl never.
Arguments submit_call : simpl never.
Arguments status_call : simpl never.
Arguments api_headers : simpl never.

(** ** Vocabulary of the specification *)

(* A named field of a JSON object; [None] on anything else. *)
Definition field (k : string) (v : json) : option json :=
  match v with
  | JObj fields => assoc k fields
  | _ => None
  end.

Definition is_get (ev : event) : bool :=
  match ev with EGet _ => true | _ => false end.
Definition is_post (ev : event) : bool :=
  match ev with EPost _ => true | _ => false end.

(* Number of status queries, and of outbound calls of any kind. *)
Definition polls (t : list event) : nat := length (filter is_get t).
Definition outbound_calls (t : list event) : nat :=
  length (filter (fun ev => is_get ev || is_post ev) t).

(* The request fields with the defaults of the [data.get] calls. *)
Definition idea_of (fields : list (string * json)) : json :=
  match assoc "idea" fields with Some v => v | None => JNull end.
Definition generated_name_of (fields : list (string * json)) : json :=
  match assoc "generatedName" fields with Some v => v | None => JStr "" end.
Definition art_style_of (fields : list (string * json)) : json :=
  match assoc "artStyle" fields with Some v => v | None => JStr "pixel" end.

Definition hashable (v : json) : bool :=
  match v with
  | JArr _ | JObj _ => false
  | _ => true
  end.

(* A request the handler takes as far as the submission. *)
Definition accepted (fields : list (string * json)) : bool :=
  py_truthy (idea_of fields) && hashable (art_style_of fields).

Definition pixel_descriptor : string :=
  ("16-bit pixel art style, retro gaming aesthetic, clean pixelated edges,"
     ++ nl ++
   "        reminiscent of classic video games, limited color palette, sharp pixels")%string.

Definition in_style_set (v : json) : bool :=
  match v with
  | JStr s => existsb (fun kv => String.eqb s (fst kv)) ART_STYLE_PROMPTS
  | _ => false
  end.

(* The descriptor the spec assigns to an artStyle value. *)
Definition style_descriptor (art_style : json) : string :=
  match art_style with
  | JStr s =>
      match assoc s ART_STYLE_PROMPTS with
      | Some d => d
      | None => pixel_descriptor
      end
  | _ => pixel_descriptor
  end.

(* The subject name: generatedName if present and non-empty, otherwise idea. *)
Definition subject_name (rt : runtime) (fields : list (string * json)) : string :=
  match assoc "generatedName" fields with
  | Some g => if py_truthy g then format_value rt g else format_value rt (idea_of fields)
  | None => format_value rt (idea_of fields)
  end.

Definition composed_prompt (rt : runtime) (fields : list (string * json)) : string :=
  base_prompt_of (subject_name rt fields) (style_descriptor (art_style_of fields)).

(* The generationId a submission response carries, if it does. *)
Definition generation_id_of (rt : runtime) (r : client_response) : option json :=
  match cr_text r with
  | inr text =>
      match json_loads rt text with
      | inr data =>
          match field "sdGenerationJob" data with
          | Some job => field "generationId" job
          | None => None
          end
      | inl _ => None
      end
  | inl _ => None
  end.

(* The [generations_by_pk] object of a status answer with HTTP status 200. *)
Definition by_pk_of (a : exn + client_response) : option json :=
  match a with
  | inr r =>
      if Z.eqb (cr_status r) 200 then
        match cr_json r with
        | inr result => field "generations_by_pk" result
        | inl _ => None
        end
      else None
  | inl _ => None
  end.

(* A status answer that leaves the job running: any non-200 response, or a
   200 response reporting a status other than COMPLETE. *)
Definition pending (a : exn + client_response) : bool :=
  match a with
  | inr r =>
      if Z.eqb (cr_status r) 200 then
        match by_pk_of a with
        | Some by_pk =>
            match field "status" by_pk with
            | Some st => negb (py_eq_str st "COMPLETE")
            | None => false
            end
        | None => false
        end
      else true
  | inl _ => false
  end.

(* A 200 answer reporting COMPLETE, with its generated_images value. *)
Definition complete_images (a : exn + client_response) : option json :=
  match by_pk_of a with
  | Some by_pk =>
      match field "status" by_pk with
      | Some st =>
          if py_eq_str st "COMPLETE" then field "generated_images" by_pk else None
      | None => None
      end
  | None => None
  end.

Definition cors_header (k : string) (r : response) : option string :=
  assoc k (headers r).

Definition has_cors_headers (r : response) : Prop :=
  cors_header "Access-Control-Allow-Origin" r = Some "*" /\
  cors_header "Access-Control-Allow-Methods" r = Some "GET, POST, OPTIONS" /\
  cors_header "Access-Control-Allow-Headers" r = Some "Content-Type".

(* A request for which the route table has an entry. *)
Definition routed (req : request) : bool :=
  existsb (fun mp => String.eqb (fst mp) (req_method req)
                     && String.eqb (snd mp) (req_path req))
    [ ("HEAD", "/"); ("GET", "/"); ("HEAD", "/ping"); ("GET", "/ping");
      ("POST", "/api/test"); ("POST", "/api/generate") ].

Definition error_body (msg : string) : json := JObj [("error", JStr msg)].

(* The responses the handler can end in. *)
Definition no_idea : response :=
  json_response (error_body "No idea provided") 400.
Definition timed_out : response :=
  json_response (error_body "Timeout waiting for image") 500.
Definition succeeded (image_url : json) : response :=
  json_response (JObj [("success", JBool true); ("imageUrl", image_url)]) 200.
Definition api_failure (rt : runtime) (e : exn) : response :=
  json_response (error_body ("API request failed: " ++ exn_str rt e)%string) 500.
Definition relayed_failure (st : Z) (text : string) : response :=
  json_response (error_body ("Failed to generate image: " ++ text)%string) st.

(* The response to a preflight request. *)
Definition preflight : response :=
  {| status := 200; content_type := "application/octet-stream";
     headers := [ ("Access-Control-Allow-Origin", "*");
                  ("Access-Control-Allow-Methods", "GET, POST, OPTIONS");
                  ("Access-Control-Allow-Headers", "Content-Type") ];
     resp_body := NoBody |}.

(* The fields of a request the handler takes as far as the submission. *)
Definition accepted_fields (req : request) : option (list (string * json)) :=
  match req_json req with
  | inr (JObj fields) => if accepted fields then Some fields else None
  | _ => None
  end.

(* The submission such a request leads to, and the remote's answer to it. *)
Definition submission_call (rt : runtime) (req : request) : option http_call :=
  option_map (fun fields => submit_call rt (composed_prompt rt fields))
    (accepted_fields req).
Definition submission_answer (rt : runtime) (w : world) (req : request)
  : option (exn + client_response) :=
  option_map (on_post w) (submission_call rt req).

(* The id of the job the remote opened for the request, if it opened one. *)
Definition job_of (rt : runtime) (w : world) (req : request) : option json :=
  match submission_answer rt w req with
  | Some (inr r) => if Z.eqb (cr_status r) 200 then generation_id_of rt r else None
  | _ => None
  end.

(* The answer to the n-th status query, n counted from 0, and to polling
   attempt k, k counted from 1. *)
Definition answer (rt : runtime) (w : world) (generation_id : json) (n : nat)
  : exn + client_response :=
  on_get w n (status_call rt generation_id).
Definition attempt (rt : runtime) (w : world) (generation_id : json) (k : nat)
  : exn + client_response :=
  answer rt w generation_id (k - 1).

(* The trace of [m] passes through the loop that do not return. *)
Fixpoint waits (rt : runtime) (generation_id : json) (m : nat) : list event :=
  match m with
  | 0 => []
  | S m' => EGet (status_call rt generation_id) :: ESleep 1 :: waits rt generation_id m'
  end.

(** ** Fixtures: a runtime and remotes to run the model on *)

Module Fixture.

Definition job_text : string := "JOB".
Definition job_json : json :=
  JObj [("sdGenerationJob", JObj [("generationId", JStr "g-1")])].

(* A decoder that knows two texts. *)
Definition loads (s : string) : exn + json :=
  if String.eqb s job_text then inr job_json
  else if String.eqb s "{}" then inr (JObj [])
  else inl (RuntimeFault "Expecting value").

Definition show_exn (e : exn) : string :=
  match e with
  | KeyError (JStr k) => ("'" ++ k ++ "'")%string
  | KeyError _ => "0"
  | IndexError => "list index out of range"
  | TypeError _ => "TypeError"
  | AttributeError _ a => a
  | HTTPNotFound => "Not Found"
  | HTTPMethodNotAllowed _ _ => "Method Not Allowed"
  | RuntimeFault msg => msg
  end.

Definition rt : runtime :=
  {| LEONARDO_API_KEY := Some "key";
     json_loads := loads;
     py_str := fun _ => "<value>";
     exn_str := show_exn |}.

Definition answer (st : Z) (text : string) (js : exn + json) : exn + client_response :=
  inr {| cr_status := st; cr_text := inr text; cr_json := js |}.

Definition status_body (st : string) (images : list json) : exn + json :=
  inr (JObj [("generations_by_pk",
              JObj [("status", JStr st); ("generated_images", JArr images)])]).

Definition image : json := JObj [("url", JStr "https://cdn/img.png")].

(* The remote accepts the job and reports PENDING until query [done]
   (counted from 0), where it reports COMPLETE with [images]. *)
Definition remote (done : nat) (images : list json) : world :=
  {| index_html := inr "<html></html>";
     on_post := fun _ => answer 200 job_text (inr job_json);
     on_get := fun n _ =>
       if Nat.eqb n done then answer 200 "" (status_body "COMPLETE" images)
       else answer 200 "" (status_body "PENDING" []) |}.

(* The remote accepts the job and answers every status query with [st]. *)
Definition busy (st : Z) : world :=
  {| index_html := inr "<html></html>";
     on_post := fun _ => answer 200 job_text (inr job_json);
     on_get := fun _ _ => answer st "" (status_body "PENDING" []) |}.

(* The remote answers the submission with [st] and [text]. *)
Definition refusing (st : Z) (text : string) : world :=
  {| index_html := inr "<html></html>";
     on_post := fun _ => answer st text (inl (RuntimeFault "not json"));
     on_get := fun _ _ => inl (RuntimeFault "unreachable") |}.

Definition post (fields : list (string * json)) : request :=
  {| req_method := "POST"; req_path := "/api/generate"; req_json := inr (JObj fields) |}.

Definition doge : list (string * json) :=
  [("idea", JStr "doge"); ("artStyle", JStr "anime")].

(* The remote accepts the job, reports PENDING until query [at_query]
   (counted from 0) and gives the outcome [a] there. *)
Definition scripted (at_query : nat) (a : exn + client_response) : world :=
  {| index_html := inr "<html></html>";
     on_post := fun _ => answer 200 job_text (inr job_json);
     on_get := fun n _ =>
       if Nat.eqb n at_query then a else answer 200 "" (status_body "PENDING" []) |}.

(* The submission itself has the outcome [a]. *)
Definition submitting (a : exn + client_response) : world :=
  {| index_html := inl (RuntimeFault "No such file or directory: 'index.html'");
     on_post := fun _ => a;
     on_get := fun _ _ => inl (RuntimeFault "unreachable") |}.

Definition get (path : string) : request :=
  {| req_method := "GET"; req_path := path; req_json := inl (RuntimeFault "no body") |}.

End Fixture.

(** ** Vocabulary for whole runs *)

(* Seconds spent in [sleep] over a trace. *)
Fixpoint sleep_seconds (t : list event) : Z :=
  match t with
  | [] => 0
  | ESleep s :: t' => s + sleep_seconds t'
  | _ :: t' => sleep_seconds t'
  end.

(* The status queries of a run that made [d] passes without returning:
   a run that stops inside pass d+1 ends on that pass's query. *)
Definition poll_trace (rt : runtime) (generation_id : json) (d : nat) : list event :=
  waits rt generation_id d ++
  (if Nat.ltb d 30 then [EGet (status_call rt generation_id)] else []).

Definition event_call (ev : event) : option http_call :=
  match ev with
  | EPost c | EGet c => Some c
  | ESleep _ => None
  end.

(* What the handler reads of the remote's answers: of the submission the
   status and the text, of a status query the status and, under 200 only,
   the decoded body. *)
Definition submission_view (a : exn + client_response) : exn + Z * (exn + string) :=
  match a with
  | inl e => inl e
  | inr r => inr (cr_status r, cr_text r)
  end.
Definition status_view (a : exn + client_response) : exn + Z * option (exn + json) :=
  match a with
  | inl e => inl e
  | inr r =>
      inr (cr_status r, if Z.eqb (cr_status r) 200 then Some (cr_json r) else None)
  end.
Definition same_views (w1 w2 : world) : Prop :=
  (forall c, submission_view (on_post w1 c) = submission_view (on_post w2 c)) /\
  (forall n c, status_view (on_get w1 n c) = status_view (on_get w2 n c)).

(* A handler's response after the middleware's three assignments. *)
Definition with_cors (r : response) : response :=
  with_header "Access-Control-Allow-Headers" "Content-Type"
    (with_header "Access-Control-Allow-Methods" "GET, POST, OPTIONS"
       (with_header "Access-Control-Allow-Origin" "*" r)).



Definition cors_headers : list (string * string) :=
  [ ("Access-Control-Allow-Origin", "*");
    ("Access-Control-Allow-Methods", "GET, POST, OPTIONS");
    ("Access-Control-Allow-Headers", "Content-Type") ].

Definition handler_error (rt : runtime) (e : exn) : response :=
  json_response (error_body (exn_str rt e)) 500.

(* The url of element 0 of a generated_images value, when there is one. *)
Definition first_image_url (images : json) : option json :=
  match getitem0 images with
  | inr image => field "url" image
  | inl _ => None
  end.

(* The status a 200 answer reports under generations_by_pk, if it does. *)
Definition reported_status (body : json) : option json :=
  match field "generations_by_pk" body with
  | Some by_pk => field "status" by_pk
  | None => None
  end.

(** ** Equations of the monad *)

Section MonadLaws.

Context {A B : Type}.

Lemma bind_ok (t : list event) (a : A) (f : A -> M B) :
  bind (t, inr a) f = (t ++ fst (f a), snd (f a)).
Proof. unfold bind. destruct (f a); reflexivity. Qed.

Lemma bind_err (t : list event) (e : exn) (f : A -> M B) :
  bind (t, inl e) f = (t, inl e).
Proof. reflexivity. Qed.

Lemma bind_lift_ok (a : A) (f : A -> M B) : bind (lift (inr a)) f = f a.
Proof. unfold lift. rewrite bind_ok. destruct (f a); reflexivity. Qed.

Lemma bind_lift_err (e : exn) (f : A -> M B) : bind (lift (inl e)) f = raise e.
Proof. reflexivity. Qed.

Lemma bind_ret (a : A) (f : A -> M B) : bind (ret a) f = f a.
Proof. apply bind_lift_ok. Qed.

Lemma try_except_ok (t : list event) (a : A) (h : exn -> M A) :
  try_except (t, inr a) h = (t, inr a).
Proof. reflexivity. Qed.

Lemma try_except_err (t : list event) (e : exn) (h : exn -> M A) :
  try_except (t, inl e) h = (t ++ fst (h e), snd (h e)).
Proof. unfold try_except. destruct (h e); reflexivity. Qed.

End MonadLaws.

Lemma bind_emit {B : Type} (ev : event) (f : unit -> M B) :
  bind (emit ev) f = (ev :: fst (f tt), snd (f tt)).
Proof. unfold emit. rewrite bind_ok. reflexivity. Qed.

Lemma session_post_eq (w : world) (c : http_call) :
  session_post w c = ([EPost c], on_post w c).
Proof. unfold session_post. rewrite bind_emit. reflexivity. Qed.

Lemma session_get_eq (w : world) (n : nat) (c : http_call) :
  session_get w n c = ([EGet c], on_get w n c).
Proof. unfold session_get. rewrite bind_emit. reflexivity. Qed.

(** ** Subscripts against the shape of the value *)

Lemma getitem_field (v : json) (k : string) (x : json) :
  field k v = Some x -> getitem v k = inr x.
Proof.
  destruct v; simpl; try discriminate.
  intros H. rewrite H. reflexivity.
Qed.

Lemma getitem_no_field (v : json) (k : string) :
  field k v = None -> exists e, getitem v k = inl e.
Proof.
  destruct v; simpl; intros H; eauto.
  rewrite H. eauto.
Qed.

(** ** The poll loop *)

Section Polling.

Variable rt : runtime.
Variable w : world.
Variable generation_id : json.

Lemma polls_waits (m : nat) (t : list event) : polls (waits rt generation_id m ++ t) = m + polls t.
Proof.
  induction m as [|m IH]; simpl; [reflexivity|].
  unfold polls in *. simpl. rewrite IH. reflexivity.
Qed.

Lemma by_pk_of_inv (a : exn + client_response) (by_pk : json) :
  by_pk_of a = Some by_pk ->
  exists r result,
    a = inr r /\ cr_status r = 200%Z /\ cr_json r = inr result /\
    field "generations_by_pk" result = Some by_pk.
Proof.
  unfold by_pk_of. destruct a as [e|r]; [discriminate|].
  destruct (Z.eqb_spec (cr_status r) 200) as [Hs|Hs]; [|discriminate].
  destruct (cr_json r) as [e|result] eqn:Hj; [discriminate|].
  intros H. exists r, result. auto.
Qed.

Lemma poll_attempt_other_status (n : nat) (r : client_response) :
  answer rt w generation_id n = inr r -> cr_status r <> 200%Z ->
  poll_attempt rt w generation_id n = ([EGet (status_call rt generation_id)], inr None).
Proof.
  intros Ha Hs. unfold poll_attempt. rewrite session_get_eq.
  fold (answer rt w generation_id n). rewrite Ha, bind_ok.
  destruct (Z.eqb_spec (cr_status r) 200) as [E|_]; [contradiction|].
  reflexivity.
Qed.

Lemma poll_attempt_pending (n : nat) :
  pending (answer rt w generation_id n) = true ->
  poll_attempt rt w generation_id n = ([EGet (status_call rt generation_id)], inr None).
Proof.
  intros Hp. destruct (answer rt w generation_id n) as [e|r] eqn:Ha; [discriminate|].
  unfold pending in Hp.
  destruct (Z.eqb_spec (cr_status r) 200) as [Hs|Hs].
  - destruct (by_pk_of (inr r)) as [by_pk|] eqn:Hb; [|discriminate].
    destruct (field "status" by_pk) as [st|] eqn:Hst; [|discriminate].
    apply by_pk_of_inv in Hb. destruct Hb as (r' & result & Hr & _ & Hj & Hf).
    injection Hr as <-.
    unfold poll_attempt. rewrite session_get_eq. fold (answer rt w generation_id n).
    rewrite Ha, bind_ok, Hs. simpl Z.eqb. cbv iota.
    rewrite Hj, bind_lift_ok, (getitem_field _ _ _ Hf), bind_lift_ok.
    rewrite (getitem_field _ _ _ Hst), bind_lift_ok.
    apply negb_true_iff in Hp. rewrite Hp. reflexivity.
  - apply (poll_attempt_other_status n r Ha Hs).
Qed.

(* What the block does with a COMPLETE answer depends on the images. *)
Lemma poll_attempt_complete (n : nat) (images : json) :
  complete_images (answer rt w generation_id n) = Some images ->
  poll_attempt rt w generation_id n =
    ([EGet (status_call rt generation_id)],
     match getitem0 images with
     | inr image =>
         match getitem image "url" with
         | inr image_url =>
             inr (Some (json_response
                          (JObj [("success", JBool true); ("imageUrl", image_url)]) 200))
         | inl e => inl e
         end
     | inl e => inl e
     end).
Proof.
  unfold complete_images. intros Hc.
  destruct (by_pk_of (answer rt w generation_id n)) as [by_pk|] eqn:Hb; [|discriminate].
  destruct (field "status" by_pk) as [st|] eqn:Hst; [|discriminate].
  destruct (py_eq_str st "COMPLETE") eqn:Heq; [|discriminate].
  apply by_pk_of_inv in Hb. destruct Hb as (r & result & Ha & Hs & Hj & Hf).
  unfold poll_attempt. rewrite session_get_eq. fold (answer rt w generation_id n).
  rewrite Ha, bind_ok, Hs. simpl Z.eqb. cbv iota.
  rewrite Hj, bind_lift_ok, (getitem_field _ _ _ Hf), bind_lift_ok.
  rewrite (getitem_field _ _ _ Hst), bind_lift_ok, Heq, bind_lift_ok.
  rewrite (getitem_field _ _ _ Hc), bind_lift_ok.
  destruct (getitem0 images) as [e|image]; [reflexivity|].
  rewrite bind_lift_ok.
  destruct (getitem image "url") as [e|image_url]; reflexivity.
Qed.

Lemma poll_loop_continue (n : nat) (rest : list nat) :
  poll_attempt rt w generation_id n = ([EGet (status_call rt generation_id)], inr None) ->
  poll_loop rt w generation_id (n :: rest) =
    (waits rt generation_id 1 ++ fst (poll_loop rt w generation_id rest),
     snd (poll_loop rt w generation_id rest)).
Proof.
  intros H. simpl poll_loop. rewrite H, bind_ok. simpl.
  destruct (poll_loop rt w generation_id rest); reflexivity.
Qed.

Lemma poll_loop_return (n : nat) (rest : list nat) (t : list event) (r : response) :
  poll_attempt rt w generation_id n = (t, inr (Some r)) ->
  poll_loop rt w generation_id (n :: rest) = (t, inr r).
Proof.
  intros H. simpl poll_loop. rewrite H, bind_ok. simpl. rewrite app_nil_r. reflexivity.
Qed.

Lemma poll_loop_raise (n : nat) (rest : list nat) (t : list event) (e : exn) :
  poll_attempt rt w generation_id n = (t, inl e) ->
  poll_loop rt w generation_id (n :: rest) = (t, inl e).
Proof.
  intros H. simpl poll_loop. rewrite H. reflexivity.
Qed.

(* A run of pending answers costs one query and one sleep each. *)
Lemma poll_loop_pending_run (m : nat) :
  forall (i : nat) (rest : list nat),
    (forall j, i <= j < i + m -> pending (answer rt w generation_id j) = true) ->
    poll_loop rt w generation_id (seq i m ++ rest) =
      (waits rt generation_id m ++ fst (poll_loop rt w generation_id rest),
       snd (poll_loop rt w generation_id rest)).
Proof.
  induction m as [|m IH]; intros i rest Hp.
  - simpl. destruct (poll_loop rt w generation_id rest); reflexivity.
  - change (seq i (S m) ++ rest) with (i :: (seq (S i) m ++ rest)).
    rewrite (poll_loop_continue i).
    + rewrite IH; [reflexivity|]. intros j Hj. apply Hp. lia.
    + apply poll_attempt_pending. apply Hp. lia.
Qed.

Lemma range_split (k : nat) :
  1 <= k <= 30 -> seq 0 30 = seq 0 (k - 1) ++ (k - 1) :: seq k (30 - k).
Proof.
  intros Hk.
  replace 30 with ((k - 1) + S (30 - k)) at 1 by lia.
  rewrite seq_app. simpl. replace (S (k - 1)) with k by lia. reflexivity.
Qed.

End Polling.

Arguments by_pk_of : simpl never.
Arguments poll_loop : simpl never.

(** ** Traces of the poll loop *)

Section PollTrace.

Variable rt : runtime.
Variable w : world.
Variable generation_id : json.

(* One pass issues one status query and nothing else. *)
Lemma poll_attempt_trace (n : nat) :
  fst (poll_attempt rt w generation_id n) = [EGet (status_call rt generation_id)].
Proof.
  unfold poll_attempt. rewrite session_get_eq.
  destruct (on_get w n (status_call rt generation_id)) as [e|r]; [reflexivity|].
  rewrite bind_ok.
  destruct (Z.eqb (cr_status r) 200); [|reflexivity].
  destruct (cr_json r) as [e|result]; [reflexivity|]. rewrite bind_lift_ok.
  destruct (getitem result "generations_by_pk") as [e|by_pk]; [reflexivity|].
  rewrite bind_lift_ok.
  destruct (getitem by_pk "status") as [e|st]; [reflexivity|]. rewrite bind_lift_ok.
  destruct (py_eq_str st "COMPLETE"); [|reflexivity]. rewrite bind_lift_ok.
  destruct (getitem by_pk "generated_images") as [e|images]; [reflexivity|].
  rewrite bind_lift_ok.
  destruct (getitem0 images) as [e|image]; [reflexivity|]. rewrite bind_lift_ok.
  destruct (getitem image "url") as [e|image_url]; reflexivity.
Qed.

Lemma poll_loop_cons (n : nat) (rest : list nat) :
  exists t, fst (poll_loop rt w generation_id (n :: rest)) =
              EGet (status_call rt generation_id) :: t /\
            (t = [] \/
             t = ESleep 1 :: fst (poll_loop rt w generation_id rest)).
Proof.
  pose proof (poll_attempt_trace n) as Ht.
  destruct (poll_attempt rt w generation_id n) as [t [e|[r|]]] eqn:Hp;
    simpl in Ht; subst t.
  - rewrite (poll_loop_raise _ _ _ _ _ _ _ Hp). exists []. auto.
  - rewrite (poll_loop_return _ _ _ _ _ _ _ Hp). exists []. auto.
  - rewrite (poll_loop_continue _ _ _ _ _ Hp). simpl. eauto.
Qed.

(* The loop never queries more often than it has attempts, and posts nothing. *)
Lemma poll_loop_bounded (attempts : list nat) :
  polls (fst (poll_loop rt w generation_id attempts)) <= length attempts /\
  Forall (fun ev => is_post ev = false) (fst (poll_loop rt w generation_id attempts)).
Proof.
  induction attempts as [|n rest [IHp IHf]].
  - split; [apply Nat.le_refl | constructor].
  - destruct (poll_loop_cons n rest) as (t & -> & [-> | ->]); unfold polls in *; simpl.
    + split; [lia | repeat constructor].
    + split; [lia | repeat constructor; assumption].
Qed.

End PollTrace.

(** ** The submission *)

Section Submission.

Variable rt : runtime.
Variable w : world.

(* The inner [try] always ends in a response. *)
Lemma call_api_total (p : string) : exists t r, call_api rt w p = (t, inr r).
Proof.
  unfold call_api.
  match goal with |- context [try_except ?m _] => destruct m as [t [e|r]] end.
  - rewrite try_except_err. simpl. eauto.
  - rewrite try_except_ok. eauto.
Qed.

Lemma call_api_refused (p : string) (r : client_response) (text : string) :
  on_post w (submit_call rt p) = inr r ->
  cr_status r <> 200%Z ->
  cr_text r = inr text ->
  call_api rt w p =
    ([EPost (submit_call rt p)],
     inr (json_response
            (error_body ("Failed to generate image: " ++ text)%string) (cr_status r))).
Proof.
  intros Hp Hs Ht. unfold call_api.
  rewrite session_post_eq, Hp, bind_ok, Ht, bind_lift_ok.
  destruct (Z.eqb_spec (cr_status r) 200) as [E|_]; [contradiction|].
  reflexivity.
Qed.

Lemma call_api_no_job (p : string) (r : client_response) :
  on_post w (submit_call rt p) = inr r ->
  cr_status r = 200%Z ->
  generation_id_of rt r = None ->
  exists e, call_api rt w p = ([EPost (submit_call rt p)], inr (api_failure rt e)).
Proof.
  intros Hp Hs Hg. unfold call_api, generation_id_of in *.
  rewrite session_post_eq, Hp, bind_ok.
  destruct (cr_text r) as [e|text]; [exists e; reflexivity|].
  rewrite bind_lift_ok, Hs. simpl negb. cbv iota.
  destruct (json_loads rt text) as [e|data]; [exists e; reflexivity|].
  rewrite bind_lift_ok.
  destruct (field "sdGenerationJob" data) as [job|] eqn:Hj.
  - rewrite (getitem_field _ _ _ Hj), bind_lift_ok.
    destruct (getitem_no_field _ _ Hg) as (e & He). rewrite He.
    exists e; reflexivity.
  - destruct (getitem_no_field _ _ Hj) as (e & He). rewrite He.
    exists e; reflexivity.
Qed.

Lemma call_api_polling (p : string) (r : client_response) (generation_id : json) :
  on_post w (submit_call rt p) = inr r ->
  cr_status r = 200%Z ->
  generation_id_of rt r = Some generation_id ->
  call_api rt w p =
    (EPost (submit_call rt p) :: fst (poll_loop rt w generation_id (seq 0 30)),
     inr match snd (poll_loop rt w generation_id (seq 0 30)) with
         | inr resp => resp
         | inl e => api_failure rt e
         end).
Proof.
  intros Hp Hs Hg. unfold call_api, generation_id_of in *.
  rewrite session_post_eq, Hp, bind_ok.
  destruct (cr_text r) as [e|text]; [discriminate|].
  rewrite bind_lift_ok, Hs. simpl negb. cbv iota.
  destruct (json_loads rt text) as [e|data]; [discriminate|].
  rewrite bind_lift_ok.
  destruct (field "sdGenerationJob" data) as [job|] eqn:Hj; [|discriminate].
  rewrite (getitem_field _ _ _ Hj), bind_lift_ok.
  rewrite (getitem_field _ _ _ Hg), bind_lift_ok.
  destruct (poll_loop rt w generation_id (seq 0 30)) as [t [e|resp]]; cbn [fst snd].
  - rewrite try_except_err. simpl. rewrite app_nil_r. reflexivity.
  - rewrite try_except_ok. reflexivity.
Qed.

(* The submission is the only POST, and it comes first. *)
Ltac quiet_trace :=
  repeat split; [constructor | unfold polls; simpl; lia].

Lemma call_api_trace (p : string) :
  exists t, fst (call_api rt w p) = EPost (submit_call rt p) :: t /\
            Forall (fun ev => is_post ev = false) t /\
            polls t <= 30.
Proof.
  destruct (on_post w (submit_call rt p)) as [e|r] eqn:Hp.
  - exists []. unfold call_api. rewrite session_post_eq, Hp.
    rewrite bind_err, try_except_err. simpl. quiet_trace.
  - destruct (Z.eqb_spec (cr_status r) 200) as [Hs|Hs].
    + destruct (generation_id_of rt r) as [generation_id|] eqn:Hg.
      * rewrite (call_api_polling p r generation_id Hp Hs Hg). simpl.
        destruct (poll_loop_bounded rt w generation_id (seq 0 30)) as [Hb Hf].
        rewrite length_seq in Hb. eauto.
      * destruct (call_api_no_job p r Hp Hs Hg) as (e & ->). exists []. simpl. quiet_trace.
    + exists []. unfold call_api. rewrite session_post_eq, Hp, bind_ok.
      destruct (cr_text r) as [e|text].
      * rewrite bind_lift_err. unfold raise. cbn [fst snd]. rewrite app_nil_r.
        rewrite try_except_err. simpl. quiet_trace.
      * rewrite bind_lift_ok.
        destruct (Z.eqb_spec (cr_status r) 200) as [E|_]; [contradiction|].
        simpl. quiet_trace.
Qed.

(** ** The handler, by the shape of the request body *)

Lemma style_getitem_pixel : style_getitem "pixel" = inr pixel_descriptor.
Proof. reflexivity. Qed.

Lemma style_get_hashable (v : json) :
  hashable v = true -> style_get v pixel_descriptor = inr (style_descriptor v).
Proof. destruct v; simpl; intros H; try reflexivity; discriminate. Qed.

Lemma style_get_unhashable (v : json) :
  hashable v = false -> style_get v pixel_descriptor = inl (TypeError v).
Proof. destruct v; simpl; intros H; try reflexivity; discriminate. Qed.

Lemma subject_name_eq (fields : list (string * json)) :
  format_value rt (py_or (generated_name_of fields) (idea_of fields)) =
  subject_name rt fields.
Proof.
  unfold subject_name, generated_name_of, py_or.
  destruct (assoc "generatedName" fields) as [g|].
  - destruct (py_truthy g); reflexivity.
  - reflexivity.
Qed.

Lemma generate_object (req : request) (fields : list (string * json)) :
  req_json req = inr (JObj fields) ->
  generate rt w req =
    if py_truthy (idea_of fields) then
      if hashable (art_style_of fields) then call_api rt w (composed_prompt rt fields)
      else ([], inr (json_response
                       (error_body (exn_str rt (TypeError (art_style_of fields)))) 500))
    else ([], inr no_idea).
Proof.
  intros Hb. unfold generate. rewrite Hb, bind_lift_ok. unfold py_get.
  rewrite !bind_lift_ok.
  fold (idea_of fields) (generated_name_of fields) (art_style_of fields).
  destruct (py_truthy (idea_of fields)); simpl negb; cbv iota; [|reflexivity].
  rewrite style_getitem_pixel, bind_lift_ok.
  destruct (hashable (art_style_of fields)) eqn:Hh.
  - rewrite (style_get_hashable _ Hh), bind_lift_ok, subject_name_eq.
    fold (composed_prompt rt fields).
    destruct (call_api_total (composed_prompt rt fields)) as (t & r & ->).
    reflexivity.
  - rewrite (style_get_unhashable _ Hh), bind_lift_err. reflexivity.
Qed.

Lemma generate_not_object (req : request) :
  (forall fields, req_json req <> inr (JObj fields)) ->
  exists e, generate rt w req = ([], inr (json_response (error_body (exn_str rt e)) 500)).
Proof.
  intros Hn. unfold generate.
  destruct (req_json req) as [e|data]; [exists e; reflexivity|].
  rewrite bind_lift_ok.
  destruct data; try (eexists; reflexivity).
  exfalso. apply (Hn fields). reflexivity.
Qed.

(* The outer [try] always ends in a response. *)
Lemma generate_total (req : request) : exists t r, generate rt w req = (t, inr r).
Proof.
  destruct (req_json req) as [e|data] eqn:Hb.
  - destruct (generate_not_object req) as (e' & ->); [|eauto].
    intros fields. rewrite Hb. discriminate.
  - destruct data;
      try (destruct (generate_not_object req) as (e' & ->);
           [intros fs; rewrite Hb; discriminate | eauto]).
    rewrite (generate_object req fields Hb).
    destruct (py_truthy (idea_of fields)); [|eauto].
    destruct (hashable (art_style_of fields)); [|eauto].
    apply call_api_total.
Qed.

End Submission.

(** ** From the request to the poll loop *)

Section Orchestration.

Variable rt : runtime.
Variable w : world.

Lemma accepted_fields_inv (req : request) (fields : list (string * json)) :
  accepted_fields req = Some fields ->
  req_json req = inr (JObj fields) /\
  py_truthy (idea_of fields) = true /\ hashable (art_style_of fields) = true.
Proof.
  unfold accepted_fields, accepted.
  destruct (req_json req) as [e|data]; [discriminate|].
  destruct data; try discriminate.
  destruct (py_truthy (idea_of fields0)) eqn:Hi; [|discriminate].
  destruct (hashable (art_style_of fields0)) eqn:Hh; [|discriminate].
  simpl. intros [= <-]. auto.
Qed.

Lemma generate_accepted (req : request) (fields : list (string * json)) :
  accepted_fields req = Some fields ->
  generate rt w req = call_api rt w (composed_prompt rt fields).
Proof.
  intros H. apply accepted_fields_inv in H. destruct H as (Hb & Hi & Hh).
  rewrite (generate_object rt w req fields Hb), Hi, Hh. reflexivity.
Qed.

(* A request that is not accepted is answered without any effect. *)
Lemma generate_rejected (req : request) :
  accepted_fields req = None -> fst (generate rt w req) = [].
Proof.
  unfold accepted_fields, accepted. intros H.
  destruct (req_json req) as [e|data] eqn:Hb.
  - destruct (generate_not_object rt w req) as (e' & ->); [|reflexivity].
    intros fs. rewrite Hb. discriminate.
  - destruct data;
      try (destruct (generate_not_object rt w req) as (e' & ->);
           [intros fs; rewrite Hb; discriminate | reflexivity]).
    rewrite (generate_object rt w req fields Hb).
    destruct (py_truthy (idea_of fields)); [|reflexivity].
    destruct (hashable (art_style_of fields)); [discriminate|reflexivity].
Qed.

Lemma submission_answer_inv (req : request) (a : exn + client_response) :
  submission_answer rt w req = Some a ->
  exists fields,
    accepted_fields req = Some fields /\
    on_post w (submit_call rt (composed_prompt rt fields)) = a.
Proof.
  unfold submission_answer, submission_call.
  destruct (accepted_fields req) as [fields|]; [|discriminate].
  simpl. intros [= <-]. eauto.
Qed.

Lemma job_of_inv (req : request) (generation_id : json) :
  job_of rt w req = Some generation_id ->
  exists fields r,
    accepted_fields req = Some fields /\
    on_post w (submit_call rt (composed_prompt rt fields)) = inr r /\
    cr_status r = 200%Z /\
    generation_id_of rt r = Some generation_id.
Proof.
  unfold job_of.
  destruct (submission_answer rt w req) as [[e|r]|] eqn:Ha; try discriminate.
  destruct (Z.eqb_spec (cr_status r) 200) as [Hs|Hs]; [|discriminate].
  intros Hg. apply submission_answer_inv in Ha. destruct Ha as (fields & Hf & Hp).
  exists fields, r. auto.
Qed.

(* Once the remote has opened a job the handler is the poll loop, with a
   raised exception turned into the 500 of the inner [except]. *)
Lemma generate_polling (req : request) (generation_id : json) :
  job_of rt w req = Some generation_id ->
  exists c,
    generate rt w req =
      (EPost c :: fst (poll_loop rt w generation_id (seq 0 30)),
       inr match snd (poll_loop rt w generation_id (seq 0 30)) with
           | inr resp => resp
           | inl e => api_failure rt e
           end).
Proof.
  intros H. apply job_of_inv in H. destruct H as (fields & r & Hf & Hp & Hs & Hg).
  rewrite (generate_accepted req fields Hf).
  rewrite (call_api_polling rt w _ r generation_id Hp Hs Hg). eauto.
Qed.

Lemma pending_attempts (generation_id : json) (m : nat) :
  (forall j, 1 <= j <= m -> pending (attempt rt w generation_id j) = true) ->
  forall j, 0 <= j < 0 + m -> pending (answer rt w generation_id j) = true.
Proof.
  intros H j Hj. specialize (H (S j)). unfold attempt in H.
  replace (S j - 1) with j in H by lia. apply H. lia.
Qed.

(* The loop up to and including attempt [k], all earlier attempts pending. *)
Lemma poll_loop_up_to (generation_id : json) (k : nat) :
  1 <= k <= 30 ->
  (forall j, 1 <= j < k -> pending (attempt rt w generation_id j) = true) ->
  poll_loop rt w generation_id (seq 0 30) =
    (waits rt generation_id (k - 1) ++
       fst (poll_loop rt w generation_id ((k - 1) :: seq k (30 - k))),
     snd (poll_loop rt w generation_id ((k - 1) :: seq k (30 - k)))).
Proof.
  intros Hk Hp. rewrite (range_split k Hk).
  apply poll_loop_pending_run.
  apply pending_attempts. intros j Hj. apply Hp. lia.
Qed.

End Orchestration.

Lemma ci_eqb_sym (a b : string) : ci_eqb a b = ci_eqb b a.
Proof. unfold ci_eqb. apply String.eqb_sym. Qed.

Lemma ci_eqb_refl (a : string) : ci_eqb a a = true.
Proof. unfold ci_eqb. apply String.eqb_refl. Qed.

(* Names that differ without regard to case differ. *)
Lemma ci_eqb_false_eqb (a b : string) : ci_eqb a b = false -> String.eqb a b = false.
Proof.
  intros H. destruct (String.eqb_spec a b) as [->|_]; [|reflexivity].
  rewrite ci_eqb_refl in H. discriminate.
Qed.

Lemma ci_eqb_trans_false (k k' n : string) :
  ci_eqb k k' = false -> ci_eqb k' n = true -> String.eqb k n = false.
Proof.
  intros Hne He. apply ci_eqb_false_eqb.
  unfold ci_eqb in *. apply String.eqb_eq in He. rewrite <- He. exact Hne.
Qed.

Lemma assoc_remove_header_other (k k' : string) (hs : list (string * string)) :
  ci_eqb k k' = false -> assoc k (remove_header k' hs) = assoc k hs.
Proof.
  intros Hne. unfold remove_header.
  induction hs as [|[n v] hs IH]; [reflexivity|].
  cbn [filter fst]. destruct (ci_eqb k' n) eqn:E; cbn [negb assoc].
  - rewrite (ci_eqb_trans_false k k' n Hne E). exact IH.
  - rewrite IH. reflexivity.
Qed.

Lemma assoc_set_header_same (k v : string) (hs : list (string * string)) :
  assoc k (set_header k v hs) = Some v.
Proof.
  induction hs as [|[k' v'] hs IH]; simpl.
  - rewrite String.eqb_refl. reflexivity.
  - destruct (ci_eqb k k') eqn:E; simpl.
    + rewrite String.eqb_refl. reflexivity.
    + rewrite (ci_eqb_false_eqb k k' E). exact IH.
Qed.

Lemma assoc_set_header_other (k k' v : string) (hs : list (string * string)) :
  ci_eqb k k' = false -> assoc k (set_header k' v hs) = assoc k hs.
Proof.
  intros Hne. induction hs as [|[k0 v0] hs IH]; simpl.
  - rewrite (ci_eqb_false_eqb k k' Hne). reflexivity.
  - destruct (ci_eqb k' k0) eqn:E; simpl.
    + rewrite (ci_eqb_false_eqb k k' Hne), (ci_eqb_trans_false k k' k0 Hne E).
      apply assoc_remove_header_other. exact Hne.
    + destruct (String.eqb k k0); [reflexivity | exact IH].
Qed.

(* Whatever the wrapped handler returned leaves the middleware with the
   three headers set. *)
Lemma cors_middleware_returns (handler : request -> M response) (req : request)
    (t : list event) (r : response) :
  cors_middleware handler req = (t, inr r) -> has_cors_headers r.
Proof.
  unfold cors_middleware. intros H.
  destruct (if String.eqb (req_method req) "OPTIONS"
            then ret web_Response_empty else handler req) as [t0 [e|r0]].
  - rewrite bind_err in H. discriminate.
  - rewrite bind_ok in H. simpl in H. injection H as _ <-.
    unfold has_cors_headers, cors_header, with_header. simpl headers.
    repeat split.
    + rewrite !assoc_set_header_other by reflexivity. apply assoc_set_header_same.
    + rewrite assoc_set_header_other by reflexivity. apply assoc_set_header_same.
    + apply assoc_set_header_same.
Qed.

Lemma cors_middleware_total (handler : request -> M response) (req : request) :
  (exists t r, handler req = (t, inr r)) ->
  exists r, cors_middleware handler req = (fst (cors_middleware handler req), inr r).
Proof.
  intros (t & r & H). unfold cors_middleware.
  destruct (String.eqb (req_method req) "OPTIONS").
  - rewrite bind_ret. simpl. eexists. reflexivity.
  - rewrite H, bind_ok. simpl. eexists. reflexivity.
Qed.

Lemma polls_post (c : http_call) (t : list event) : polls (EPost c :: t) = polls t.
Proof. reflexivity. Qed.

(* An accepted request is submitted, whatever the remote does next. *)
Lemma accepted_request_posts (rt : runtime) (w : world) (req : request)
    (fields : list (string * json)) :
  accepted_fields req = Some fields ->
  exists t,
    trace (generate rt w req) = EPost (submit_call rt (composed_prompt rt fields)) :: t.
Proof.
  intros Hf. rewrite (generate_accepted rt w req fields Hf).
  destruct (call_api_trace rt w (composed_prompt rt fields)) as (t & Ht & _).
  exists t. exact Ht.
Qed.

(** * The claims *)

(** ** Submission failures *)

(** C1, as amended.  When the remote answers the submission with an HTTP
    status other than 200, the service answers with a JSON error body and
    issues no status query.  If the response text can be read, the status is
    the remote's own status (500 only if the remote said 500) and the body is
    [{"error": "Failed to generate image: " + text}]; if reading the text
    raises, the status is 500 and the body is
    [{"error": "API request failed: " + exception text}]. *)
Theorem generate_relays_remote_status
    (rt : runtime) (w : world) (req : request) (r : client_response) :
  submission_answer rt w req = Some (inr r) ->
  cr_status r <> 200%Z ->
  result (generate rt w req) =
    inr match cr_text r with
        | inr text => relayed_failure (cr_status r) text
        | inl e => api_failure rt e
        end /\
  polls (trace (generate rt w req)) = 0.
Proof.
  intros Ha Hs.
  apply submission_answer_inv in Ha. destruct Ha as (fields & Hf & Hp).
  rewrite (generate_accepted rt w req fields Hf).
  unfold call_api. rewrite session_post_eq, Hp, bind_ok.
  destruct (cr_text r) as [e|text].
  - split; reflexivity.
  - rewrite bind_lift_ok.
    destruct (Z.eqb_spec (cr_status r) 200) as [E|_]; [contradiction|].
    split; reflexivity.
Qed.

Lemma generate_relays_remote_status_witness :
  result (generate Fixture.rt (Fixture.refusing 503 "overloaded")
            (Fixture.post Fixture.doge))
    = inr (relayed_failure 503 "overloaded") /\
  polls (trace (generate Fixture.rt (Fixture.refusing 503 "overloaded")
                  (Fixture.post Fixture.doge))) = 0.
Proof.
  apply (generate_relays_remote_status Fixture.rt (Fixture.refusing 503 "overloaded")
           (Fixture.post Fixture.doge)
           {| cr_status := 503; cr_text := inr "overloaded";
              cr_json := inl (RuntimeFault "not json") |}).
  - reflexivity.
  - simpl. lia.
Defined.

(** C1, counterexample.  The remote rejects the submission with 401; the
    service answers 401, not 500. *)
Lemma generate_401_is_not_500 :
  let w := Fixture.refusing 401 "unauthorized" in
  let req := Fixture.post Fixture.doge in
  (exists r, submission_answer Fixture.rt w req = Some (inr r) /\
             cr_status r <> 200%Z) /\
  ~ (exists resp, result (generate Fixture.rt w req) = inr resp /\
                  status resp = 500%Z).
Proof.
  split.
  - eexists. split; [reflexivity|]. simpl. lia.
  - intros (resp & H & Hs). vm_compute in H. injection H as <-.
    simpl in Hs. discriminate.
Qed.

(** C7.  A submission answered with HTTP 200 whose body carries no
    [sdGenerationJob.generationId] (or is not JSON at all) ends in a 500 JSON
    error response, without a single status query. *)
Theorem generate_without_generation_id
    (rt : runtime) (w : world) (req : request) (r : client_response) :
  submission_answer rt w req = Some (inr r) ->
  cr_status r = 200%Z ->
  generation_id_of rt r = None ->
  (exists msg, result (generate rt w req) = inr (json_response (error_body msg) 500)) /\
  polls (trace (generate rt w req)) = 0.
Proof.
  intros Ha Hs Hg.
  apply submission_answer_inv in Ha. destruct Ha as (fields & Hf & Hp).
  rewrite (generate_accepted rt w req fields Hf).
  destruct (call_api_no_job rt w _ r Hp Hs Hg) as (e & ->).
  split; [|reflexivity].
  eexists. reflexivity.
Qed.

Lemma generate_without_generation_id_witness :
  (exists msg,
     result (generate Fixture.rt (Fixture.refusing 200 "{}") (Fixture.post Fixture.doge))
       = inr (json_response (error_body msg) 500)) /\
  polls (trace (generate Fixture.rt (Fixture.refusing 200 "{}")
                  (Fixture.post Fixture.doge))) = 0.
Proof.
  apply (generate_without_generation_id Fixture.rt (Fixture.refusing 200 "{}")
           (Fixture.post Fixture.doge)
           {| cr_status := 200; cr_text := inr "{}";
              cr_json := inl (RuntimeFault "not json") |}).
  - reflexivity.
  - reflexivity.
  - reflexivity.
Defined.

(** ** Validation *)

(** C2.  A request body without an [idea] field, or with the empty string
    as idea, is answered 400 with exactly [{"error": "No idea provided"}],
    and nothing is sent to the remote API. *)
Theorem generate_no_idea
    (rt : runtime) (w : world) (req : request) (fields : list (string * json)) :
  req_json req = inr (JObj fields) ->
  assoc "idea" fields = None \/ assoc "idea" fields = Some (JStr "") ->
  result (generate rt w req) = inr no_idea /\
  outbound_calls (trace (generate rt w req)) = 0.
Proof.
  intros Hb Hi. rewrite (generate_object rt w req fields Hb).
  assert (py_truthy (idea_of fields) = false) as ->.
  { unfold idea_of. destruct Hi as [-> | ->]; reflexivity. }
  split; reflexivity.
Qed.

Lemma generate_no_idea_witness :
  result (generate Fixture.rt (Fixture.busy 200)
            (Fixture.post [("artStyle", JStr "anime")])) = inr no_idea /\
  outbound_calls (trace (generate Fixture.rt (Fixture.busy 200)
                           (Fixture.post [("artStyle", JStr "anime")]))) = 0.
Proof.
  apply (generate_no_idea Fixture.rt (Fixture.busy 200)
           (Fixture.post [("artStyle", JStr "anime")]) [("artStyle", JStr "anime")]).
  - reflexivity.
  - left. reflexivity.
Defined.

(** ** The prompt *)

Lemma accepted_fields_intro (req : request) (fields : list (string * json)) :
  req_json req = inr (JObj fields) ->
  py_truthy (idea_of fields) = true ->
  hashable (art_style_of fields) = true ->
  accepted_fields req = Some fields.
Proof.
  intros Hb Hi Hh. unfold accepted_fields, accepted. rewrite Hb, Hi, Hh. reflexivity.
Qed.

(** C3.  Every request with a usable idea and a hashable artStyle is
    submitted, and whatever the remote does, a submission the handler sends
    goes to the generations URL with a payload whose "prompt" field is the
    fixed template text around a subject and a style that depend on the
    request alone.  The subject is generatedName when present and non-empty,
    otherwise idea; the style is the descriptor the style mapping holds for
    artStyle, and the pixel descriptor for every artStyle outside the style
    set. *)
Theorem generate_prompt (rt : runtime) (w : world) (req : request) :
  (forall fields,
     req_json req = inr (JObj fields) ->
     py_truthy (idea_of fields) = true ->
     hashable (art_style_of fields) = true ->
     exists c t, trace (generate rt w req) = EPost c :: t) /\
  (forall c,
     In (EPost c) (trace (generate rt w req)) ->
     exists fields payload subject style,
       req_json req = inr (JObj fields) /\
       call_url c = "https://cloud.leonardo.ai/api/rest/v1/generations" /\
       call_json c = Some payload /\
       field "prompt" payload =
         Some (JStr ("detailed cryptocurrency mascot logo of a " ++ subject ++ ","
                       ++ nl ++
                     "            " ++ style ++ "," ++ nl ++
                     "            centered composition, clean vectorized style,"
                       ++ nl ++
                     "            suitable for crypto token, professional logo design")%string)
       /\
       subject = subject_name rt fields /\
       (forall g, assoc "generatedName" fields = Some (JStr g) -> g <> "" ->
                  subject = g) /\
       (assoc "generatedName" fields = None \/
        assoc "generatedName" fields = Some (JStr "") ->
        forall i, assoc "idea" fields = Some (JStr i) -> subject = i) /\
       style = style_descriptor (art_style_of fields) /\
       (forall s d, art_style_of fields = JStr s ->
                    assoc s ART_STYLE_PROMPTS = Some d -> style = d) /\
       (in_style_set (art_style_of fields) = false -> style = pixel_descriptor)).
Proof.
  split.
  - intros fields Hb Hi Hh.
    destruct (accepted_request_posts rt w req fields
                (accepted_fields_intro req fields Hb Hi Hh)) as (t & Ht).
    eauto.
  - intros c Hin.
    destruct (accepted_fields req) as [fields|] eqn:Hf.
    2:{ unfold trace in Hin. rewrite (generate_rejected rt w req Hf) in Hin.
        destruct Hin. }
    rewrite (generate_accepted rt w req fields Hf) in Hin.
    destruct (call_api_trace rt w (composed_prompt rt fields)) as (t & Ht & Hnp & _).
    unfold trace in Hin. rewrite Ht in Hin.
    assert (c = submit_call rt (composed_prompt rt fields)) as ->.
    { destruct Hin as [[= <-] | Hin]; [reflexivity|].
      rewrite Forall_forall in Hnp. apply Hnp in Hin. discriminate. }
    destruct (accepted_fields_inv req fields Hf) as (Hb & _ & _).
    exists fields, (payload_of (composed_prompt rt fields)),
           (subject_name rt fields), (style_descriptor (art_style_of fields)).
    split; [exact Hb|]. split; [reflexivity|]. split; [reflexivity|].
    split; [reflexivity|]. split; [reflexivity|].
    split; [|split; [|split; [reflexivity|split]]].
    + intros g Hg Hne. unfold subject_name. rewrite Hg. simpl py_truthy.
      destruct (String.eqb_spec g "") as [E|_]; [contradiction | reflexivity].
    + intros Hg i Hi. unfold subject_name, idea_of. rewrite Hi.
      destruct Hg as [-> | ->]; reflexivity.
    + intros s d Hs Ha. unfold style_descriptor. rewrite Hs. cbv beta iota.
      rewrite Ha. reflexivity.
    + unfold style_descriptor, in_style_set.
      destruct (art_style_of fields); try reflexivity.
      intros Hs.
      destruct (assoc s ART_STYLE_PROMPTS) as [d|] eqn:Ha; [|reflexivity].
      exfalso. revert Hs Ha. unfold ART_STYLE_PROMPTS.
      cbn [assoc existsb fst].
      repeat (destruct (String.eqb s _); [discriminate|]).
      discriminate.
Qed.

Lemma generate_prompt_witness :
  exists fields payload subject style,
    req_json (Fixture.post [("idea", JStr "doge"); ("artStyle", JStr "vaporwave")])
      = inr (JObj fields) /\
    call_url (submit_call Fixture.rt (base_prompt_of "doge" pixel_descriptor))
      = "https://cloud.leonardo.ai/api/rest/v1/generations" /\
    call_json (submit_call Fixture.rt (base_prompt_of "doge" pixel_descriptor))
      = Some payload /\
    field "prompt" payload =
      Some (JStr ("detailed cryptocurrency mascot logo of a " ++ subject ++ ","
                    ++ nl ++
                  "            " ++ style ++ "," ++ nl ++
                  "            centered composition, clean vectorized style,"
                    ++ nl ++
                  "            suitable for crypto token, professional logo design")%string)
    /\
    subject = subject_name Fixture.rt fields /\
    (forall g, assoc "generatedName" fields = Some (JStr g) -> g <> "" ->
               subject = g) /\
    (assoc "generatedName" fields = None \/
     assoc "generatedName" fields = Some (JStr "") ->
     forall i, assoc "idea" fields = Some (JStr i) -> subject = i) /\
    style = style_descriptor (art_style_of fields) /\
    (forall s d, art_style_of fields = JStr s ->
                 assoc s ART_STYLE_PROMPTS = Some d -> style = d) /\
    (in_style_set (art_style_of fields) = false -> style = pixel_descriptor).
Proof.
  apply (proj2 (generate_prompt Fixture.rt (Fixture.refusing 401 "unauthorized")
                  (Fixture.post [("idea", JStr "doge");
                                 ("artStyle", JStr "vaporwave")]))
           (submit_call Fixture.rt (base_prompt_of "doge" pixel_descriptor))).
  vm_compute. left. reflexivity.
Defined.

(** ** Polling *)

(** C4.  The remote has opened a job.  If polling attempt k (1 <= k <= 30)
    is the first one answered 200 with status COMPLETE -- each earlier
    attempt being answered with another HTTP status or with a 200 body that
    reports another job status -- and its generated_images list starts with
    an image carrying a url, the service returns
    [{"success": true, "imageUrl": url}] with status 200 after exactly k
    status queries. *)
Theorem generate_first_complete
    (rt : runtime) (w : world) (req : request) (generation_id : json)
    (k : nat) (image : json) (more : list json) (image_url : json) :
  job_of rt w req = Some generation_id ->
  1 <= k <= 30 ->
  (forall j, 1 <= j < k -> pending (attempt rt w generation_id j) = true) ->
  complete_images (attempt rt w generation_id k) = Some (JArr (image :: more)) ->
  field "url" image = Some image_url ->
  result (generate rt w req) = inr (succeeded image_url) /\
  polls (trace (generate rt w req)) = k.
Proof.
  intros Hjob Hk Hp Hc Hu.
  destruct (generate_polling rt w req generation_id Hjob) as (c & ->).
  rewrite (poll_loop_up_to rt w generation_id k Hk Hp).
  pose proof (poll_attempt_complete rt w generation_id (k - 1) _ Hc) as Ha.
  cbn beta iota delta [getitem0] in Ha. rewrite (getitem_field _ _ _ Hu) in Ha.
  rewrite (poll_loop_return _ _ _ _ _ _ _ Ha).
  unfold result, trace. cbn [fst snd]. split; [reflexivity|].
  rewrite polls_post, polls_waits. unfold polls. simpl. lia.
Qed.

Lemma generate_first_complete_witness :
  result (generate Fixture.rt (Fixture.remote 4 [Fixture.image])
            (Fixture.post Fixture.doge))
    = inr (succeeded (JStr "https://cdn/img.png")) /\
  polls (trace (generate Fixture.rt (Fixture.remote 4 [Fixture.image])
                  (Fixture.post Fixture.doge))) = 5.
Proof.
  apply (generate_first_complete Fixture.rt (Fixture.remote 4 [Fixture.image])
           (Fixture.post Fixture.doge) (JStr "g-1") 5 Fixture.image []
           (JStr "https://cdn/img.png")).
  - reflexivity.
  - lia.
  - intros j Hj. unfold attempt, answer. simpl.
    destruct (Nat.eqb_spec (j - 1) 4); [lia | reflexivity].
  - reflexivity.
  - reflexivity.
Defined.

(** C5.  The remote has opened a job.  If none of the 30 polling attempts
    is answered with COMPLETE -- each being answered with another HTTP
    status or with a 200 body that reports another job status -- the
    service issues exactly 30 status queries and then returns status 500 with
    the JSON body [{"error": "Timeout waiting for image"}]. *)
Theorem generate_timeout
    (rt : runtime) (w : world) (req : request) (generation_id : json) :
  job_of rt w req = Some generation_id ->
  (forall j, 1 <= j <= 30 -> pending (attempt rt w generation_id j) = true) ->
  result (generate rt w req) = inr timed_out /\
  polls (trace (generate rt w req)) = 30.
Proof.
  intros Hjob Hp.
  destruct (generate_polling rt w req generation_id Hjob) as (c & ->).
  pose proof (poll_loop_pending_run rt w generation_id 30 0 []
                (pending_attempts rt w generation_id 30 Hp)) as Hrun.
  rewrite app_nil_r in Hrun. rewrite Hrun.
  unfold result, trace. cbn [fst snd]. split; [reflexivity|].
  rewrite polls_post, polls_waits. reflexivity.
Qed.

Lemma generate_timeout_witness :
  result (generate Fixture.rt (Fixture.busy 200) (Fixture.post Fixture.doge))
    = inr timed_out /\
  polls (trace (generate Fixture.rt (Fixture.busy 200) (Fixture.post Fixture.doge)))
    = 30.
Proof.
  apply (generate_timeout Fixture.rt (Fixture.busy 200) (Fixture.post Fixture.doge)
           (JStr "g-1")).
  - reflexivity.
  - intros j Hj. reflexivity.
Defined.

(** C6.  The remote has opened a job and polling attempt k is reached (all
    earlier attempts pending).  If attempt k is answered with an HTTP status
    other than 200, the request neither fails nor returns there: for k < 30
    the next status query is issued, and for k = 30 the loop is exhausted
    and the timeout response follows.  The attempt counts: there are never
    more than 30 status queries. *)
Theorem generate_skips_non_200_poll
    (rt : runtime) (w : world) (req : request) (generation_id : json)
    (k : nat) (a : client_response) :
  job_of rt w req = Some generation_id ->
  1 <= k <= 30 ->
  (forall j, 1 <= j < k -> pending (attempt rt w generation_id j) = true) ->
  attempt rt w generation_id k = inr a ->
  cr_status a <> 200%Z ->
  (k < 30 -> k < polls (trace (generate rt w req))) /\
  (k = 30 -> result (generate rt w req) = inr timed_out) /\
  polls (trace (generate rt w req)) <= 30.
Proof.
  intros Hjob Hk Hp Ha Hs.
  destruct (generate_polling rt w req generation_id Hjob) as (c & ->).
  unfold result, trace. cbn [fst snd].
  rewrite polls_post. split; [|split].
  - intros Hlt.
    rewrite (poll_loop_up_to rt w generation_id k Hk Hp). cbn [fst].
    rewrite polls_waits.
    rewrite (poll_loop_continue rt w generation_id (k - 1));
      [|apply (poll_attempt_other_status rt w generation_id (k - 1) a Ha Hs)].
    cbn [fst]. rewrite polls_waits.
    destruct (30 - k) as [|m] eqn:E; [lia|]. cbn [seq].
    destruct (poll_loop_cons rt w generation_id k (seq (S k) m)) as (t & -> & _).
    unfold polls. simpl. lia.
  - intros ->.
    rewrite (poll_loop_up_to rt w generation_id 30 Hk Hp). cbn [snd].
    rewrite (poll_loop_continue rt w generation_id (30 - 1));
      [|apply (poll_attempt_other_status rt w generation_id (30 - 1) a Ha Hs)].
    reflexivity.
  - pose proof (poll_loop_bounded rt w generation_id (seq 0 30)) as [Hb _].
    rewrite length_seq in Hb. exact Hb.
Qed.

Lemma generate_skips_non_200_poll_witness :
  (3 < 30 ->
   3 < polls (trace (generate Fixture.rt (Fixture.busy 503) (Fixture.post Fixture.doge)))) /\
  (3 = 30 ->
   result (generate Fixture.rt (Fixture.busy 503) (Fixture.post Fixture.doge))
     = inr timed_out) /\
  polls (trace (generate Fixture.rt (Fixture.busy 503) (Fixture.post Fixture.doge)))
    <= 30.
Proof.
  apply (generate_skips_non_200_poll Fixture.rt (Fixture.busy 503)
           (Fixture.post Fixture.doge) (JStr "g-1") 3
           {| cr_status := 503; cr_text := inr "";
              cr_json := Fixture.status_body "PENDING" [] |}).
  - reflexivity.
  - lia.
  - intros j Hj. reflexivity.
  - reflexivity.
  - simpl. lia.
Defined.

(** C9.  The remote has opened a job and polling attempt k is reached (all
    earlier attempts pending).  If attempt k is answered 200 with status
    COMPLETE and an empty generated_images list, polling stops there and the
    handler returns status 500 with a JSON error body: the index fault is
    caught by the inner [except] and does not leave the handler. *)
Theorem generate_complete_without_images
    (rt : runtime) (w : world) (req : request) (generation_id : json) (k : nat) :
  job_of rt w req = Some generation_id ->
  1 <= k <= 30 ->
  (forall j, 1 <= j < k -> pending (attempt rt w generation_id j) = true) ->
  complete_images (attempt rt w generation_id k) = Some (JArr []) ->
  result (generate rt w req) = inr (api_failure rt IndexError) /\
  status (api_failure rt IndexError) = 500%Z /\
  (exists msg, resp_body (api_failure rt IndexError) = JsonBody (error_body msg)) /\
  polls (trace (generate rt w req)) = k.
Proof.
  intros Hjob Hk Hp Hc.
  destruct (generate_polling rt w req generation_id Hjob) as (c & ->).
  rewrite (poll_loop_up_to rt w generation_id k Hk Hp).
  pose proof (poll_attempt_complete rt w generation_id (k - 1) _ Hc) as Ha.
  cbn beta iota delta [getitem0] in Ha.
  rewrite (poll_loop_raise _ _ _ _ _ _ _ Ha).
  unfold result, trace. cbn [fst snd].
  repeat split.
  - eexists. reflexivity.
  - rewrite polls_post, polls_waits. unfold polls. simpl. lia.
Qed.

Lemma generate_complete_without_images_witness :
  result (generate Fixture.rt (Fixture.remote 2 []) (Fixture.post Fixture.doge))
    = inr (api_failure Fixture.rt IndexError) /\
  status (api_failure Fixture.rt IndexError) = 500%Z /\
  (exists msg,
     resp_body (api_failure Fixture.rt IndexError) = JsonBody (error_body msg)) /\
  polls (trace (generate Fixture.rt (Fixture.remote 2 []) (Fixture.post Fixture.doge)))
    = 3.
Proof.
  apply (generate_complete_without_images Fixture.rt (Fixture.remote 2 [])
           (Fixture.post Fixture.doge) (JStr "g-1") 3).
  - reflexivity.
  - lia.
  - intros j Hj. unfold attempt, answer. simpl.
    destruct (Nat.eqb_spec (j - 1) 2); [lia | reflexivity].
  - reflexivity.
Defined.

(** ** The unused request field *)

(** C10.  Two request bodies that agree on every field other than
    isRegeneration get, from the same remote, the same response and the same
    sequence of outbound requests. *)
Theorem generate_ignores_is_regeneration
    (rt : runtime) (w : world) (req1 req2 : request)
    (fields1 fields2 : list (string * json)) :
  req_json req1 = inr (JObj fields1) ->
  req_json req2 = inr (JObj fields2) ->
  (forall k, k <> "isRegeneration" -> assoc k fields1 = assoc k fields2) ->
  generate rt w req1 = generate rt w req2.
Proof.
  intros H1 H2 Hsame.
  rewrite (generate_object rt w req1 fields1 H1), (generate_object rt w req2 fields2 H2).
  assert (idea_of fields1 = idea_of fields2) as Hi.
  { unfold idea_of. rewrite (Hsame "idea"); [reflexivity | discriminate]. }
  assert (art_style_of fields1 = art_style_of fields2) as Hs.
  { unfold art_style_of. rewrite (Hsame "artStyle"); [reflexivity | discriminate]. }
  assert (composed_prompt rt fields1 = composed_prompt rt fields2) as Hc.
  { unfold composed_prompt, subject_name.
    rewrite Hi, Hs, (Hsame "generatedName"); [reflexivity | discriminate]. }
  rewrite Hi, Hs, Hc. reflexivity.
Qed.

Lemma generate_ignores_is_regeneration_witness :
  generate Fixture.rt (Fixture.remote 1 [Fixture.image])
    (Fixture.post (("isRegeneration", JBool true) :: Fixture.doge))
  = generate Fixture.rt (Fixture.remote 1 [Fixture.image])
      (Fixture.post (Fixture.doge ++ [("isRegeneration", JStr "no")])).
Proof.
  apply (generate_ignores_is_regeneration Fixture.rt (Fixture.remote 1 [Fixture.image])
           (Fixture.post (("isRegeneration", JBool true) :: Fixture.doge))
           (Fixture.post (Fixture.doge ++ [("isRegeneration", JStr "no")]))
           (("isRegeneration", JBool true) :: Fixture.doge)
           (Fixture.doge ++ [("isRegeneration", JStr "no")])).
  - reflexivity.
  - reflexivity.
  - intros k Hk. simpl.
    destruct (String.eqb_spec k "isRegeneration") as [E|_]; [contradiction|].
    reflexivity.
Defined.

(** ** CORS *)

Lemma routed_handler_returns (rt : runtime) (w : world) (req : request) :
  routed req = true -> exists t r, resolve rt w req req = (t, inr r).
Proof.
  unfold routed. cbn [existsb fst snd]. rewrite !orb_true_iff, !andb_true_iff.
  unfold resolve.
  intros H.
  repeat (destruct H as [H|H]); try discriminate;
    destruct H as [Hm Hp];
    apply String.eqb_eq in Hm; apply String.eqb_eq in Hp;
    rewrite <- Hm, <- Hp; cbn [routes filter find route_path route_method fst snd];
    cbv [String.eqb Ascii.eqb Bool.eqb];
    cbn [filter find route_path route_method fst snd].
  - unfold serve_html. destruct (index_html w); eexists; eexists; reflexivity.
  - unfold serve_html. destruct (index_html w); eexists; eexists; reflexivity.
  - eexists; eexists; reflexivity.
  - eexists; eexists; reflexivity.
  - eexists; eexists; reflexivity.
  - apply generate_total.
Qed.

(** C8, as amended.  Every OPTIONS request, to any path, is answered 200
    with an empty body and the three CORS headers, without running a handler;
    and every request for which the route table has an entry is answered
    with the three CORS headers set.  (A response the framework produces
    itself for a request that matches no route is outside this statement.) *)
Theorem cors_headers_on_handled_requests (rt : runtime) (w : world) (req : request) :
  req_method req = "OPTIONS" \/ routed req = true ->
  has_cors_headers (fst (app rt w req)) /\
  (req_method req = "OPTIONS" -> app rt w req = (preflight, [])).
Proof.
  intros H.
  assert (req_method req = "OPTIONS" -> app rt w req = (preflight, [])) as Hopt.
  { intros Hm. unfold app, cors_middleware. rewrite Hm. reflexivity. }
  split; [|exact Hopt].
  destruct (String.eqb_spec (req_method req) "OPTIONS") as [Hm|Hm].
  - rewrite (Hopt Hm). repeat split.
  - destruct H as [H|H]; [contradiction|].
    destruct (cors_middleware_total (resolve rt w req) req
                (routed_handler_returns rt w req H)) as (r & Hr).
    unfold app. rewrite Hr. cbn [fst].
    apply (cors_middleware_returns _ _ _ _ Hr).
Qed.

Lemma cors_headers_on_handled_requests_witness :
  has_cors_headers
    (fst (app Fixture.rt (Fixture.busy 200)
            {| req_method := "OPTIONS"; req_path := "/no/such/route";
               req_json := inl (RuntimeFault "no body") |})) /\
  ("OPTIONS" = "OPTIONS" ->
   app Fixture.rt (Fixture.busy 200)
     {| req_method := "OPTIONS"; req_path := "/no/such/route";
        req_json := inl (RuntimeFault "no body") |} = (preflight, [])).
Proof.
  apply (cors_headers_on_handled_requests Fixture.rt (Fixture.busy 200)
           {| req_method := "OPTIONS"; req_path := "/no/such/route";
              req_json := inl (RuntimeFault "no body") |}).
  left. reflexivity.
Defined.

(** C8, counterexample.  GET on a path with no route: the resolver's handler
    raises HTTPNotFound, the middleware is left before its header
    assignments, and the 404 that is sent has none of the three headers. *)
Lemma unrouted_get_lacks_cors_headers :
  let req := {| req_method := "GET"; req_path := "/no/such/route";
                req_json := inl (RuntimeFault "no body") |} in
  let r := fst (app Fixture.rt (Fixture.busy 200) req) in
  status r = 404%Z /\
  cors_header "Access-Control-Allow-Origin" r = None /\
  cors_header "Access-Control-Allow-Methods" r = None /\
  cors_header "Access-Control-Allow-Headers" r = None /\
  ~ has_cors_headers r.
Proof.
  simpl. repeat split. intros (H & _). vm_compute in H. discriminate.
Qed.

(** * Whole runs of the handler *)

Lemma getitem_inr (v : json) (k : string) (x : json) :
  getitem v k = inr x -> field k v = Some x.
Proof.
  destruct v; simpl; try discriminate.
  destruct (assoc k fields); [intros [= ->]; reflexivity | discriminate].
Qed.

Lemma getitem_inl (v : json) (k : string) (e : exn) :
  getitem v k = inl e -> field k v = None.
Proof.
  destruct v; simpl; try reflexivity.
  destruct (assoc k fields); [discriminate | reflexivity].
Qed.

Section Runs.

Variable rt : runtime.
Variable w : world.

(* The three ways out of one pass through the loop body. *)
Lemma poll_attempt_result (generation_id : json) (n : nat) :
  exists o,
    poll_attempt rt w generation_id n = ([EGet (status_call rt generation_id)], o) /\
    match o with
    | inr None => pending (answer rt w generation_id n) = true
    | inr (Some r) =>
        exists images image image_url,
          complete_images (answer rt w generation_id n) = Some images /\
          getitem0 images = inr image /\
          getitem image "url" = inr image_url /\
          r = succeeded image_url
    | inl e => pending (answer rt w generation_id n) = false
    end.
Proof.
  unfold poll_attempt, answer. rewrite session_get_eq.
  destruct (on_get w n (status_call rt generation_id)) as [e|r] eqn:Ha.
  { exists (inl e). split; reflexivity. }
  rewrite bind_ok. unfold pending, complete_images, by_pk_of.
  destruct (Z.eqb (cr_status r) 200) eqn:Hs.
  2:{ exists (inr None). split; reflexivity. }
  destruct (cr_json r) as [e|result0] eqn:Hj.
  { exists (inl e). split; reflexivity. }
  rewrite bind_lift_ok.
  destruct (getitem result0 "generations_by_pk") as [e|by_pk] eqn:Hb.
  { exists (inl e). split; [reflexivity|]. rewrite (getitem_inl _ _ _ Hb). reflexivity. }
  rewrite (getitem_inr _ _ _ Hb), bind_lift_ok.
  destruct (getitem by_pk "status") as [e|st] eqn:Hst.
  { exists (inl e). split; [reflexivity|]. rewrite (getitem_inl _ _ _ Hst). reflexivity. }
  rewrite (getitem_inr _ _ _ Hst), bind_lift_ok.
  destruct (py_eq_str st "COMPLETE") eqn:Hc.
  2:{ exists (inr None). split; reflexivity. }
  rewrite bind_lift_ok.
  destruct (getitem by_pk "generated_images") as [e|images] eqn:Hi.
  { exists (inl e). split; reflexivity. }
  rewrite bind_lift_ok.
  destruct (getitem0 images) as [e|image] eqn:H0.
  { exists (inl e). split; reflexivity. }
  rewrite bind_lift_ok.
  destruct (getitem image "url") as [e|image_url] eqn:Hu.
  { exists (inl e). split; reflexivity. }
  rewrite bind_lift_ok.
  eexists. split; [reflexivity|].
  exists images, image, image_url.
  rewrite (getitem_inr _ _ _ Hi). auto.
Qed.

(* The loop over a range, in full: either every answer was pending and the
   timeout response follows, or it stops inside pass d+1, on a COMPLETE
   answer with a usable image or on an exception. *)
Lemma poll_loop_run (generation_id : json) (m : nat) :
  forall i,
    (poll_loop rt w generation_id (seq i m) = (waits rt generation_id m, inr timed_out) /\
     forall j, i <= j < i + m -> pending (answer rt w generation_id j) = true)
    \/
    exists d o,
      d < m /\
      (forall j, i <= j < i + d -> pending (answer rt w generation_id j) = true) /\
      poll_loop rt w generation_id (seq i m) =
        (waits rt generation_id d ++ [EGet (status_call rt generation_id)], o) /\
      ((exists images image image_url,
          complete_images (answer rt w generation_id (i + d)) = Some images /\
          getitem0 images = inr image /\
          getitem image "url" = inr image_url /\
          o = inr (succeeded image_url))
       \/
       (exists e, o = inl e /\ pending (answer rt w generation_id (i + d)) = false)).
Proof.
  induction m as [|m IH]; intros i.
  - left. split; [reflexivity | intros j Hj; lia].
  - cbn [seq].
    destruct (poll_attempt_result generation_id i) as (o & Hp & Ho).
    destruct o as [e|[r|]].
    + right. exists 0, (inl e). rewrite Nat.add_0_r.
      repeat split; [lia | intros j Hj; lia | |].
      * apply (poll_loop_raise _ _ _ _ _ _ _ Hp).
      * right. eauto.
    + right. exists 0, (inr r). rewrite Nat.add_0_r.
      repeat split; [lia | intros j Hj; lia | |].
      * apply (poll_loop_return _ _ _ _ _ _ _ Hp).
      * left. destruct Ho as (images & image & image_url & H1 & H2 & H3 & ->).
        exists images, image, image_url. auto.
    + rewrite (poll_loop_continue _ _ _ _ _ Hp).
      destruct (IH (S i)) as [[Hl Hall] | (d & o & Hd & Hpre & Hl & Hout)].
      * left. rewrite Hl. split; [reflexivity|].
        intros j Hj. destruct (Nat.eq_dec j i) as [->|Hne]; [exact Ho|].
        apply Hall. lia.
      * right. exists (S d), o. rewrite Hl.
        replace (i + S d) with (S i + d) by lia.
        repeat split; [lia | | exact Hout].
        intros j Hj. destruct (Nat.eq_dec j i) as [->|Hne]; [exact Ho|].
        apply Hpre. lia.
Qed.

Lemma call_api_post_fault (p : string) (e : exn) :
  on_post w (submit_call rt p) = inl e \/
  (exists r, on_post w (submit_call rt p) = inr r /\ cr_text r = inl e) ->
  call_api rt w p = ([EPost (submit_call rt p)], inr (api_failure rt e)).
Proof.
  intros [Hp | (r & Hp & Ht)]; unfold call_api; rewrite session_post_eq, Hp.
  - reflexivity.
  - rewrite bind_ok, Ht. reflexivity.
Qed.

Lemma job_of_intro (req : request) (fields : list (string * json))
    (r : client_response) (generation_id : json) :
  accepted_fields req = Some fields ->
  on_post w (submit_call rt (composed_prompt rt fields)) = inr r ->
  cr_status r = 200%Z ->
  generation_id_of rt r = Some generation_id ->
  job_of rt w req = Some generation_id.
Proof.
  intros Hf Hp Hs Hg. unfold job_of, submission_answer, submission_call.
  rewrite Hf. simpl. rewrite Hp, Hs. exact Hg.
Qed.

(* A request that is not accepted: the two answers there are. *)
Lemma generate_unaccepted_run (req : request) :
  accepted_fields req = None ->
  (exists fields,
     req_json req = inr (JObj fields) /\ py_truthy (idea_of fields) = false /\
     generate rt w req = ([], inr no_idea))
  \/
  (exists e,
     (forall fields, req_json req = inr (JObj fields) ->
                     py_truthy (idea_of fields) = true) /\
     generate rt w req = ([], inr (handler_error rt e))).
Proof.
  unfold accepted_fields, accepted. intros H.
  destruct (req_json req) as [e|data] eqn:Hb.
  - right. destruct (generate_not_object rt w req) as (e' & ->).
    + intros fs. rewrite Hb. discriminate.
    + exists e'. split; [intros fs; discriminate | reflexivity].
  - destruct data;
      try (right; destruct (generate_not_object rt w req) as (e' & ->);
           [intros fs; rewrite Hb; discriminate
           | exists e'; split; [intros fs; discriminate | reflexivity]]).
    rewrite (generate_object rt w req fields Hb).
    destruct (py_truthy (idea_of fields)) eqn:Hi.
    + destruct (hashable (art_style_of fields)); [discriminate|].
      right. eexists. split; [|reflexivity].
      intros fs [= <-]. exact Hi.
    + left. exists fields. auto.
Qed.

(* An accepted request: every way the inner [try] can go. *)
Lemma generate_accepted_run (req : request) (fields : list (string * json)) :
  accepted_fields req = Some fields ->
  let c := submit_call rt (composed_prompt rt fields) in
  (exists e,
     (on_post w c = inl e \/ exists r, on_post w c = inr r /\ cr_text r = inl e) /\
     generate rt w req = ([EPost c], inr (api_failure rt e)))
  \/
  (exists r text,
     on_post w c = inr r /\ cr_status r <> 200%Z /\ cr_text r = inr text /\
     generate rt w req = ([EPost c], inr (relayed_failure (cr_status r) text)))
  \/
  (exists r e,
     on_post w c = inr r /\ cr_status r = 200%Z /\ generation_id_of rt r = None /\
     generate rt w req = ([EPost c], inr (api_failure rt e)))
  \/
  (exists generation_id,
     job_of rt w req = Some generation_id /\
     ((generate rt w req = (EPost c :: waits rt generation_id 30, inr timed_out) /\
       forall j, 1 <= j <= 30 -> pending (attempt rt w generation_id j) = true)
      \/
      exists k,
        1 <= k <= 30 /\
        (forall j, 1 <= j < k -> pending (attempt rt w generation_id j) = true) /\
        ((exists images image image_url,
            complete_images (attempt rt w generation_id k) = Some images /\
            getitem0 images = inr image /\
            getitem image "url" = inr image_url /\
            generate rt w req =
              (EPost c :: waits rt generation_id (k - 1)
                            ++ [EGet (status_call rt generation_id)],
               inr (succeeded image_url)))
         \/
         (exists e,
            pending (attempt rt w generation_id k) = false /\
            generate rt w req =
              (EPost c :: waits rt generation_id (k - 1)
                            ++ [EGet (status_call rt generation_id)],
               inr (api_failure rt e)))))).
Proof.
  intros Hf c. rewrite (generate_accepted rt w req fields Hf). fold c.
  destruct (on_post w c) as [e|r] eqn:Hp.
  { left. exists e. split; [auto|]. apply call_api_post_fault. auto. }
  destruct (cr_text r) as [e|text] eqn:Ht.
  { left. exists e. split; [right; eauto|]. apply call_api_post_fault. right. eauto. }
  destruct (Z.eq_dec (cr_status r) 200) as [Hs|Hs].
  2:{ right. left. exists r, text. repeat split; auto.
      apply (call_api_refused rt w _ r text Hp Hs Ht). }
  destruct (generation_id_of rt r) as [generation_id|] eqn:Hg.
  2:{ right. right. left.
      destruct (call_api_no_job rt w _ r Hp Hs Hg) as (e & He).
      exists r, e. auto. }
  right. right. right. exists generation_id.
  split; [apply (job_of_intro req fields r generation_id Hf Hp Hs Hg)|].
  rewrite (call_api_polling rt w _ r generation_id Hp Hs Hg). fold c.
  destruct (poll_loop_run generation_id 30 0)
    as [[Hl Hall] | (d & o & Hd & Hpre & Hl & Hout)]; rewrite Hl; cbn [fst snd].
  - left. split; [reflexivity|].
    intros j Hj. unfold attempt. apply Hall. lia.
  - right. exists (S d). replace (S d - 1) with d by lia. unfold attempt.
    replace (S d - 1) with d by lia. simpl plus in Hout.
    split; [lia|]. split.
    + intros j Hj. apply Hpre. lia.
    + destruct Hout as [(images & image & image_url & H1 & H2 & H3 & ->)
                       | (e & -> & Hnp)].
      * left. exists images, image, image_url. auto.
      * right. exists e. auto.
Qed.

End Runs.

(* Case analysis over every path through [generate]. *)
Ltac run_cases rt w req :=
  let Hr := fresh "Hr" in
  destruct (accepted_fields req) as [fields|] eqn:Hf;
  [ pose proof (generate_accepted_run rt w req fields Hf) as Hr;
    cbv zeta in Hr;
    destruct Hr as
      [ (e & Hfault & Hrun)
      | [ (a & text & Hp & Hs & Ht & Hrun)
        | [ (a & e & Hp & Hs & Hg & Hrun)
          | (gid & Hjob &
             [ (Hrun & Hall)
             | (k & Hk & Hpre &
                [ (images & image & image_url & Hc & H0 & Hu & Hrun)
                | (e & Hnp & Hrun) ]) ]) ] ] ]
  | destruct (generate_unaccepted_run rt w req Hf) as
      [ (fields & Hb & Hi & Hrun) | (e & Hgate & Hrun) ] ].

Lemma submission_call_accepted (rt : runtime) (req : request)
    (fields : list (string * json)) :
  accepted_fields req = Some fields ->
  submission_call rt req = Some (submit_call rt (composed_prompt rt fields)).
Proof. intros Hf. unfold submission_call. rewrite Hf. reflexivity. Qed.

Lemma submission_answer_accepted (rt : runtime) (w : world) (req : request)
    (fields : list (string * json)) :
  accepted_fields req = Some fields ->
  submission_answer rt w req =
    Some (on_post w (submit_call rt (composed_prompt rt fields))).
Proof.
  intros Hf. unfold submission_answer.
  rewrite (submission_call_accepted rt req fields Hf). reflexivity.
Qed.

Lemma poll_trace_stop (rt : runtime) (generation_id : json) (k : nat) :
  1 <= k <= 30 ->
  waits rt generation_id (k - 1) ++ [EGet (status_call rt generation_id)] =
  poll_trace rt generation_id (k - 1).
Proof.
  intros Hk. unfold poll_trace.
  destruct (Nat.ltb_spec (k - 1) 30) as [_|H]; [reflexivity | lia].
Qed.

Lemma poll_trace_full (rt : runtime) (generation_id : json) :
  waits rt generation_id 30 = poll_trace rt generation_id 30.
Proof. unfold poll_trace. rewrite app_nil_r. reflexivity. Qed.

(* The shapes a trace of the handler can have. *)
Lemma generate_trace_cases (rt : runtime) (w : world) (req : request) :
  (submission_call rt req = None /\ trace (generate rt w req) = []) \/
  exists c,
    submission_call rt req = Some c /\
    (trace (generate rt w req) = [EPost c] \/
     exists generation_id d,
       job_of rt w req = Some generation_id /\ d <= 30 /\
       trace (generate rt w req) = EPost c :: poll_trace rt generation_id d).
Proof.
  run_cases rt w req; rewrite Hrun; unfold trace; cbn [fst];
    try (right; eexists; split; [apply (submission_call_accepted rt req fields Hf)|]).
  - left. reflexivity.
  - left. reflexivity.
  - left. reflexivity.
  - right. exists gid, 30. rewrite poll_trace_full. auto.
  - right. exists gid, (k - 1). rewrite (poll_trace_stop rt gid k Hk).
    repeat split; [exact Hjob | lia].
  - right. exists gid, (k - 1). rewrite (poll_trace_stop rt gid k Hk).
    repeat split; [exact Hjob | lia].
  - left. unfold submission_call. rewrite Hf. auto.
  - left. unfold submission_call. rewrite Hf. auto.
Qed.

Lemma sleep_seconds_waits (rt : runtime) (generation_id : json) (d : nat)
    (t : list event) :
  sleep_seconds (waits rt generation_id d ++ t) = (Z.of_nat d + sleep_seconds t)%Z.
Proof.
  induction d as [|d IH]; [reflexivity|].
  change (sleep_seconds (waits rt generation_id (S d) ++ t))
    with (1 + sleep_seconds (waits rt generation_id d ++ t))%Z.
  rewrite IH. lia.
Qed.

Lemma poll_trace_counts (rt : runtime) (generation_id : json) (d : nat) :
  d <= 30 ->
  polls (poll_trace rt generation_id d) = (if Nat.ltb d 30 then S d else d) /\
  sleep_seconds (poll_trace rt generation_id d) = Z.of_nat d /\
  length (filter is_post (poll_trace rt generation_id d)) = 0.
Proof.
  intros Hd. unfold poll_trace. rewrite polls_waits, sleep_seconds_waits.
  rewrite filter_app.
  assert (filter is_post (waits rt generation_id d) = []) as ->.
  { clear Hd. induction d as [|d IH]; [reflexivity | exact IH]. }
  destruct (Nat.ltb d 30); cbn; repeat split; lia.
Qed.

Lemma in_poll_trace (rt : runtime) (generation_id : json) (d : nat) (ev : event) :
  In ev (poll_trace rt generation_id d) ->
  ev = EGet (status_call rt generation_id) \/ ev = ESleep 1.
Proof.
  unfold poll_trace. rewrite in_app_iff. intros [H|H].
  - induction d as [|d IH]; [destruct H|].
    destruct H as [<-|[<-|H]]; auto.
  - destruct (Nat.ltb d 30); [|destruct H].
    destruct H as [<-|[]]. auto.
Qed.

(** * Further properties of the code *)

(** X1.  [generate] answers every request, whatever the remote does: no
    exception leaves the handler, the response is a JSON response without
    extra headers, and its status is 200, 400 or 500, or else the non-200
    status the remote gave to the submission. *)
Theorem generate_always_answers_json (rt : runtime) (w : world) (req : request) :
  exists r,
    result (generate rt w req) = inr r /\
    content_type r = "application/json" /\
    headers r = [] /\
    (exists data, resp_body r = JsonBody data) /\
    (status r = 200%Z \/ status r = 400%Z \/ status r = 500%Z \/
     exists a, submission_answer rt w req = Some (inr a) /\
               cr_status a <> 200%Z /\ status r = cr_status a).
Proof.
  run_cases rt w req; rewrite Hrun; unfold result; cbn [snd];
    eexists; (split; [reflexivity|]); (split; [reflexivity|]);
    (split; [reflexivity|]); (split; [eexists; reflexivity|]); cbn [status];
    try (right; right; left; reflexivity).
  - right. right. right. exists a.
    rewrite (submission_answer_accepted rt w req fields Hf), Hp. auto.
  - left. reflexivity.
  - right. left. reflexivity.
Qed.

(** X2.  Whatever the request and the remote, one run of [generate] sends
    at most one submission and at most 30 status queries; a status query is
    only sent for a job the remote opened, and after the submission. *)
Theorem generate_call_budget (rt : runtime) (w : world) (req : request) :
  length (filter is_post (trace (generate rt w req))) <= 1 /\
  polls (trace (generate rt w req)) <= 30 /\
  (0 < polls (trace (generate rt w req)) ->
   exists generation_id c t,
     job_of rt w req = Some generation_id /\
     trace (generate rt w req) = EPost c :: t /\
     length (filter is_post t) = 0).
Proof.
  destruct (generate_trace_cases rt w req)
    as [[_ ->] | (c & _ & [-> | (gid & d & Hjob & Hd & ->)])].
  - cbn. repeat split; try lia.
  - cbn. repeat split; try lia.
  - destruct (poll_trace_counts rt gid d Hd) as (Hp & _ & Hn).
    cbn [filter is_post length]. rewrite polls_post, Hn, Hp.
    repeat split.
    + lia.
    + destruct (Nat.ltb_spec d 30); lia.
    + intros _. exists gid, c, (poll_trace rt gid d). auto.
Qed.



(** X4.  Every outbound request of a run carries the same three headers,
    the bearer token being the configured key or the text None when no key
    is configured; and every status query goes, without a body, to the
    generations URL of the job the remote opened. *)
Theorem generate_outbound_requests
    (rt : runtime) (w : world) (req : request) (ev : event) (c : http_call) :
  In ev (trace (generate rt w req)) ->
  event_call ev = Some c ->
  call_headers c =
    [ ("accept", "application/json");
      ("authorization",
       ("Bearer " ++ match LEONARDO_API_KEY rt with
                     | Some key => key
                     | None => "None"
                     end)%string);
      ("content-type", "application/json") ] /\
  (is_get ev = true ->
   exists generation_id,
     job_of rt w req = Some generation_id /\
     call_url c =
       ("https://cloud.leonardo.ai/api/rest/v1/generations/"
          ++ format_value rt generation_id)%string /\
     call_json c = None).
Proof.
  intros Hin Hc.
  destruct (generate_trace_cases rt w req)
    as [[_ Ht] | (c0 & Hsub & [Ht | (gid & d & Hjob & Hd & Ht)])];
    rewrite Ht in Hin.
  - destruct Hin.
  - destruct Hin as [<-|[]]. injection Hc as <-.
    unfold submission_call in Hsub.
    destruct (accepted_fields req); [|discriminate]. injection Hsub as <-.
    split; [reflexivity | discriminate].
  - destruct Hin as [<-|Hin].
    + injection Hc as <-.
      unfold submission_call in Hsub.
      destruct (accepted_fields req); [|discriminate]. injection Hsub as <-.
      split; [reflexivity | discriminate].
    + apply in_poll_trace in Hin. destruct Hin as [-> | ->]; [|discriminate].
      injection Hc as <-. split; [reflexivity|].
      intros _. exists gid. repeat split. exact Hjob.
Qed.

Lemma generate_outbound_requests_witness :
  call_headers (status_call Fixture.rt (JStr "g-1")) =
    [ ("accept", "application/json");
      ("authorization", "Bearer key");
      ("content-type", "application/json") ] /\
  (is_get (EGet (status_call Fixture.rt (JStr "g-1"))) = true ->
   exists generation_id,
     job_of Fixture.rt (Fixture.busy 503) (Fixture.post Fixture.doge)
       = Some generation_id /\
     call_url (status_call Fixture.rt (JStr "g-1")) =
       ("https://cloud.leonardo.ai/api/rest/v1/generations/"
          ++ format_value Fixture.rt generation_id)%string /\
     call_json (status_call Fixture.rt (JStr "g-1")) = None).
Proof.
  apply (generate_outbound_requests Fixture.rt (Fixture.busy 503)
           (Fixture.post Fixture.doge) (EGet (status_call Fixture.rt (JStr "g-1")))
           (status_call Fixture.rt (JStr "g-1"))).
  - vm_compute. right. left. reflexivity.
  - reflexivity.
Defined.

Lemma polls_stop (rt : runtime) (c : http_call) (generation_id : json) (k : nat) :
  1 <= k ->
  polls (EPost c :: waits rt generation_id (k - 1)
                      ++ [EGet (status_call rt generation_id)]) = k.
Proof.
  intros Hk. rewrite polls_post, polls_waits. unfold polls. simpl. lia.
Qed.

(* A pass that raises ends the request at that pass. *)
Lemma generate_poll_raise (rt : runtime) (w : world) (req : request)
    (generation_id : json) (k : nat) (e : exn) :
  job_of rt w req = Some generation_id ->
  1 <= k <= 30 ->
  (forall j, 1 <= j < k -> pending (attempt rt w generation_id j) = true) ->
  snd (poll_attempt rt w generation_id (k - 1)) = inl e ->
  result (generate rt w req) = inr (api_failure rt e) /\
  polls (trace (generate rt w req)) = k.
Proof.
  intros Hjob Hk Hp He.
  destruct (generate_polling rt w req generation_id Hjob) as (c & ->).
  rewrite (poll_loop_up_to rt w generation_id k Hk Hp).
  pose proof (poll_attempt_trace rt w generation_id (k - 1)) as Ht.
  destruct (poll_attempt rt w generation_id (k - 1)) as [t o] eqn:Ha.
  cbn [fst snd] in Ht, He. subst t o.
  rewrite (poll_loop_raise _ _ _ _ _ _ _ Ha).
  unfold result, trace. cbn [fst snd]. split; [reflexivity|].
  apply polls_stop. lia.
Qed.

(** X5.  [generate] answers 200 only from a COMPLETE status answer: if the
    response has status 200, the remote opened a job, some polling attempt
    k was the first whose answer was not pending, that answer reported
    COMPLETE with a generated_images value whose element 0 has a url, the
    response is [{"success": true, "imageUrl": url}] and exactly k status
    queries were sent. *)
Theorem generate_success_only_if_complete
    (rt : runtime) (w : world) (req : request) (r : response) :
  result (generate rt w req) = inr r ->
  status r = 200%Z ->
  exists generation_id k images image image_url,
    job_of rt w req = Some generation_id /\
    1 <= k <= 30 /\
    (forall j, 1 <= j < k -> pending (attempt rt w generation_id j) = true) /\
    complete_images (attempt rt w generation_id k) = Some images /\
    getitem0 images = inr image /\
    getitem image "url" = inr image_url /\
    r = succeeded image_url /\
    polls (trace (generate rt w req)) = k.
Proof.
  intros Hres Hst.
  run_cases rt w req; rewrite Hrun in Hres |- *; unfold result in Hres;
    cbn [snd] in Hres; injection Hres as <-; cbn [status api_failure relayed_failure
      timed_out no_idea handler_error json_response] in Hst;
    try discriminate; try contradiction.
  exists gid, k, images, image, image_url.
  repeat split; try assumption; try lia.
  unfold trace. cbn [fst]. apply polls_stop. lia.
Qed.

Lemma generate_success_only_if_complete_witness :
  exists generation_id k images image image_url,
    job_of Fixture.rt (Fixture.remote 4 [Fixture.image]) (Fixture.post Fixture.doge)
      = Some generation_id /\
    1 <= k <= 30 /\
    (forall j, 1 <= j < k ->
       pending (attempt Fixture.rt (Fixture.remote 4 [Fixture.image]) generation_id j)
         = true) /\
    complete_images
      (attempt Fixture.rt (Fixture.remote 4 [Fixture.image]) generation_id k)
      = Some images /\
    getitem0 images = inr image /\
    getitem image "url" = inr image_url /\
    succeeded (JStr "https://cdn/img.png") = succeeded image_url /\
    polls (trace (generate Fixture.rt (Fixture.remote 4 [Fixture.image])
                    (Fixture.post Fixture.doge))) = k.
Proof.
  apply (generate_success_only_if_complete Fixture.rt
           (Fixture.remote 4 [Fixture.image]) (Fixture.post Fixture.doge)
           (succeeded (JStr "https://cdn/img.png"))).
  - vm_compute. reflexivity.
  - reflexivity.
Defined.

(** X6.  For a request that got as far as the submission, the timeout
    response is only given after the full loop: the remote opened a job,
    all 30 polling attempts were answered pending, and exactly 30 status
    queries were sent. *)
Theorem generate_timeout_only_after_30
    (rt : runtime) (w : world) (req : request) (fs : list (string * json)) :
  accepted_fields req = Some fs ->
  result (generate rt w req) = inr timed_out ->
  polls (trace (generate rt w req)) = 30 /\
  exists generation_id,
    job_of rt w req = Some generation_id /\
    forall j, 1 <= j <= 30 -> pending (attempt rt w generation_id j) = true.
Proof.
  intros Hacc Hres.
  run_cases rt w req; try discriminate; rewrite Hrun in Hres |- *;
    unfold result in Hres; cbn [snd] in Hres;
    try (exfalso; revert Hres; clear; intros Hres; simpl in Hres; discriminate).
  unfold trace. cbn [fst].
  rewrite polls_post, <- (app_nil_r (waits rt gid 30)), polls_waits.
  split; [reflexivity|]. exists gid. auto.
Qed.

Lemma generate_timeout_only_after_30_witness :
  polls (trace (generate Fixture.rt (Fixture.busy 404) (Fixture.post Fixture.doge)))
    = 30 /\
  exists generation_id,
    job_of Fixture.rt (Fixture.busy 404) (Fixture.post Fixture.doge)
      = Some generation_id /\
    forall j, 1 <= j <= 30 ->
      pending (attempt Fixture.rt (Fixture.busy 404) generation_id j) = true.
Proof.
  apply (generate_timeout_only_after_30 Fixture.rt (Fixture.busy 404)
           (Fixture.post Fixture.doge) Fixture.doge).
  - reflexivity.
  - vm_compute. reflexivity.
Defined.

(** X7.  The 400 answer [{"error": "No idea provided"}] is given exactly
    to the requests whose body is a JSON object with a missing or falsy
    idea (null, false, 0, the empty string, an empty list or object). *)
Theorem generate_no_idea_iff (rt : runtime) (w : world) (req : request) :
  result (generate rt w req) = inr no_idea <->
  exists fields,
    req_json req = inr (JObj fields) /\ py_truthy (idea_of fields) = false.
Proof.
  split.
  - intros Hres.
    run_cases rt w req; rewrite Hrun in Hres; unfold result in Hres;
      cbn [snd] in Hres;
      try (exfalso; revert Hres; clear; intros Hres; simpl in Hres; discriminate).
    exists fields. auto.
  - intros (fields & Hb & Hi).
    rewrite (generate_object rt w req fields Hb), Hi. reflexivity.
Qed.

(** X8.  A request with a usable idea whose artStyle is a list or an
    object is not submitted: the dictionary lookup raises on the unhashable
    key, and the handler answers 500 with the text of that exception and
    sends nothing. *)
Theorem generate_unhashable_art_style
    (rt : runtime) (w : world) (req : request) (fields : list (string * json)) :
  req_json req = inr (JObj fields) ->
  py_truthy (idea_of fields) = true ->
  hashable (art_style_of fields) = false ->
  generate rt w req =
    ([], inr (json_response
                (error_body (exn_str rt (TypeError (art_style_of fields)))) 500)).
Proof.
  intros Hb Hi Hh.
  rewrite (generate_object rt w req fields Hb), Hi, Hh. reflexivity.
Qed.

Lemma generate_unhashable_art_style_witness :
  generate Fixture.rt (Fixture.busy 200)
    (Fixture.post [("idea", JStr "doge"); ("artStyle", JArr [JStr "anime"])])
  = ([], inr (json_response
                (error_body (exn_str Fixture.rt (TypeError (JArr [JStr "anime"])))) 500)).
Proof.
  apply (generate_unhashable_art_style Fixture.rt (Fixture.busy 200)
           (Fixture.post [("idea", JStr "doge"); ("artStyle", JArr [JStr "anime"])])
           [("idea", JStr "doge"); ("artStyle", JArr [JStr "anime"])]).
  - reflexivity.
  - reflexivity.
  - reflexivity.
Defined.

(** X9.  A request whose body cannot be decoded, or decodes to something
    other than a JSON object, is answered 500 with the text of the
    exception -- the decoder's, or the AttributeError of [data.get] -- and
    nothing is sent to the remote. *)
Theorem generate_bad_body (rt : runtime) (w : world) (req : request) :
  (forall fields, req_json req <> inr (JObj fields)) ->
  generate rt w req =
    ([], inr (json_response
                (error_body
                   (exn_str rt match req_json req with
                               | inl e => e
                               | inr data => AttributeError data "get"
                               end)) 500)).
Proof.
  intros Hn. unfold generate.
  destruct (req_json req) as [e|data]; [reflexivity|].
  destruct data; try reflexivity.
  exfalso. apply (Hn fields). reflexivity.
Qed.

Lemma generate_bad_body_witness :
  generate Fixture.rt (Fixture.busy 200)
    {| req_method := "POST"; req_path := "/api/generate";
       req_json := inr (JArr [JStr "doge"]) |}
  = ([], inr (json_response
                (error_body
                   (exn_str Fixture.rt (AttributeError (JArr [JStr "doge"]) "get")))
                500)).
Proof.
  apply (generate_bad_body Fixture.rt (Fixture.busy 200)
           {| req_method := "POST"; req_path := "/api/generate";
              req_json := inr (JArr [JStr "doge"]) |}).
  intros fields. simpl. discriminate.
Defined.

Lemma poll_attempt_raises (rt : runtime) (w : world) (generation_id : json) (n : nat) :
  pending (answer rt w generation_id n) = false ->
  (forall images,
     complete_images (answer rt w generation_id n) = Some images ->
     first_image_url images = None) ->
  exists e, snd (poll_attempt rt w generation_id n) = inl e.
Proof.
  intros Hnp Hnc.
  destruct (poll_attempt_result rt w generation_id n) as (o & -> & Ho).
  destruct o as [e|[r|]].
  - exists e. reflexivity.
  - destruct Ho as (images & image & image_url & Hc & H0 & Hu & _).
    specialize (Hnc images Hc). unfold first_image_url in Hnc.
    rewrite H0, (getitem_inr _ _ _ Hu) in Hnc. discriminate.
  - congruence.
Qed.

(** X10.  When the submission itself fails -- the client raises instead
    of giving a response, or reading the response text raises -- the
    handler answers 500 with "API request failed: " and the text of that
    exception, after the one POST; this also holds when the response had a
    non-200 status, since the text is read before the status is looked at. *)
Theorem generate_submission_fault
    (rt : runtime) (w : world) (req : request)
    (a : exn + client_response) (e : exn) :
  submission_answer rt w req = Some a ->
  a = inl e \/ (exists r, a = inr r /\ cr_text r = inl e) ->
  exists c,
    submission_call rt req = Some c /\
    generate rt w req = ([EPost c], inr (api_failure rt e)).
Proof.
  intros Ha Hfault.
  apply submission_answer_inv in Ha. destruct Ha as (fields & Hf & Hp).
  exists (submit_call rt (composed_prompt rt fields)).
  split; [apply (submission_call_accepted rt req fields Hf)|].
  rewrite (generate_accepted rt w req fields Hf).
  apply call_api_post_fault. rewrite Hp.
  destruct Hfault as [-> | (r & -> & Ht)]; [left | right; exists r]; auto.
Qed.

Lemma generate_submission_fault_witness :
  exists c,
    submission_call Fixture.rt (Fixture.post Fixture.doge) = Some c /\
    generate Fixture.rt
      (Fixture.submitting
         (inr {| cr_status := 502; cr_text := inl (RuntimeFault "bad charset");
                 cr_json := inl (RuntimeFault "bad charset") |}))
      (Fixture.post Fixture.doge)
    = ([EPost c], inr (api_failure Fixture.rt (RuntimeFault "bad charset"))).
Proof.
  apply (generate_submission_fault Fixture.rt
           (Fixture.submitting
              (inr {| cr_status := 502; cr_text := inl (RuntimeFault "bad charset");
                      cr_json := inl (RuntimeFault "bad charset") |}))
           (Fixture.post Fixture.doge)
           (inr {| cr_status := 502; cr_text := inl (RuntimeFault "bad charset");
                   cr_json := inl (RuntimeFault "bad charset") |})
           (RuntimeFault "bad charset")).
  - reflexivity.
  - right. eexists. split; reflexivity.
Defined.

(** X11.  The remote has opened a job and polling attempt k is reached.
    If the client raises on that status query, or the answer has status 200
    and its body cannot be decoded, polling stops there: the handler answers
    500 with "API request failed: " and the text of that exception, after
    exactly k status queries. *)
Theorem generate_poll_fault
    (rt : runtime) (w : world) (req : request) (generation_id : json)
    (k : nat) (e : exn) :
  job_of rt w req = Some generation_id ->
  1 <= k <= 30 ->
  (forall j, 1 <= j < k -> pending (attempt rt w generation_id j) = true) ->
  attempt rt w generation_id k = inl e \/
  (exists a, attempt rt w generation_id k = inr a /\
             cr_status a = 200%Z /\ cr_json a = inl e) ->
  result (generate rt w req) = inr (api_failure rt e) /\
  polls (trace (generate rt w req)) = k.
Proof.
  intros Hjob Hk Hp Ha.
  apply (generate_poll_raise rt w req generation_id k e Hjob Hk Hp).
  unfold poll_attempt. rewrite session_get_eq.
  unfold attempt, answer in Ha.
  destruct Ha as [-> | (a & -> & Hs & Hj)]; [reflexivity|].
  rewrite bind_ok, Hs, Hj. reflexivity.
Qed.

Lemma generate_poll_fault_witness :
  result (generate Fixture.rt
            (Fixture.scripted 1 (inl (RuntimeFault "connection reset")))
            (Fixture.post Fixture.doge))
    = inr (api_failure Fixture.rt (RuntimeFault "connection reset")) /\
  polls (trace (generate Fixture.rt
                  (Fixture.scripted 1 (inl (RuntimeFault "connection reset")))
                  (Fixture.post Fixture.doge))) = 2.
Proof.
  apply (generate_poll_fault Fixture.rt
           (Fixture.scripted 1 (inl (RuntimeFault "connection reset")))
           (Fixture.post Fixture.doge) (JStr "g-1") 2
           (RuntimeFault "connection reset")).
  - reflexivity.
  - lia.
  - intros j Hj. unfold attempt, answer. simpl.
    destruct (Nat.eqb_spec (j - 1) 1); [lia | reflexivity].
  - left. reflexivity.
Defined.

(** X12.  The remote has opened a job and polling attempt k is reached.
    If that attempt is answered 200 with a decoded body that has no
    [generations_by_pk.status], the handler does not go on polling: it
    answers 500 with an "API request failed" body after exactly k status
    queries. *)
Theorem generate_status_body_without_status
    (rt : runtime) (w : world) (req : request) (generation_id : json)
    (k : nat) (a : client_response) (body : json) :
  job_of rt w req = Some generation_id ->
  1 <= k <= 30 ->
  (forall j, 1 <= j < k -> pending (attempt rt w generation_id j) = true) ->
  attempt rt w generation_id k = inr a ->
  cr_status a = 200%Z ->
  cr_json a = inr body ->
  reported_status body = None ->
  (exists e, result (generate rt w req) = inr (api_failure rt e)) /\
  polls (trace (generate rt w req)) = k.
Proof.
  intros Hjob Hk Hp Ha Hs Hj Hr.
  assert (by_pk_of (attempt rt w generation_id k) = field "generations_by_pk" body)
    as Hby.
  { unfold by_pk_of. rewrite Ha, Hs, Hj. reflexivity. }
  destruct (poll_attempt_raises rt w generation_id (k - 1)) as (e & He).
  - fold (attempt rt w generation_id k). unfold pending. rewrite Hby, Ha, Hs.
    unfold reported_status in Hr. simpl Z.eqb. cbv iota.
    destruct (field "generations_by_pk" body); [rewrite Hr|]; reflexivity.
  - fold (attempt rt w generation_id k). unfold complete_images. rewrite Hby.
    unfold reported_status in Hr.
    destruct (field "generations_by_pk" body); [rewrite Hr|]; discriminate.
  - destruct (generate_poll_raise rt w req generation_id k e Hjob Hk Hp He)
      as [H1 H2].
    split; [exists e; exact H1 | exact H2].
Qed.

Lemma generate_status_body_without_status_witness :
  (exists e,
     result (generate Fixture.rt
               (Fixture.scripted 0 (Fixture.answer 200 "" (inr (JObj []))))
               (Fixture.post Fixture.doge))
       = inr (api_failure Fixture.rt e)) /\
  polls (trace (generate Fixture.rt
                  (Fixture.scripted 0 (Fixture.answer 200 "" (inr (JObj []))))
                  (Fixture.post Fixture.doge))) = 1.
Proof.
  apply (generate_status_body_without_status Fixture.rt
           (Fixture.scripted 0 (Fixture.answer 200 "" (inr (JObj []))))
           (Fixture.post Fixture.doge) (JStr "g-1") 1
           {| cr_status := 200; cr_text := inr ""; cr_json := inr (JObj []) |}
           (JObj [])).
  - reflexivity.
  - lia.
  - intros j Hj. lia.
  - reflexivity.
  - reflexivity.
  - reflexivity.
  - reflexivity.
Defined.

(** X13.  The remote has opened a job and polling attempt k is reached.
    If that attempt is answered COMPLETE but generated_images has no element
    0 with a url (an empty list, a value that is not a list, a first image
    without url), polling stops there with a 500 "API request failed" answer
    after exactly k status queries: success is never reported without a
    url. *)
Theorem generate_complete_without_url
    (rt : runtime) (w : world) (req : request) (generation_id : json)
    (k : nat) (images : json) :
  job_of rt w req = Some generation_id ->
  1 <= k <= 30 ->
  (forall j, 1 <= j < k -> pending (attempt rt w generation_id j) = true) ->
  complete_images (attempt rt w generation_id k) = Some images ->
  first_image_url images = None ->
  (exists e, result (generate rt w req) = inr (api_failure rt e)) /\
  polls (trace (generate rt w req)) = k.
Proof.
  intros Hjob Hk Hp Hc Hu.
  destruct (poll_attempt_raises rt w generation_id (k - 1)) as (e & He).
  - fold (attempt rt w generation_id k).
    revert Hc. unfold complete_images, pending.
    destruct (by_pk_of (attempt rt w generation_id k)) as [by_pk|] eqn:Hb;
      [|discriminate].
    apply by_pk_of_inv in Hb. destruct Hb as (r & body & -> & Hs & _ & _).
    rewrite Hs. simpl Z.eqb. cbv iota.
    destruct (field "status" by_pk) as [st|]; [|discriminate].
    destruct (py_eq_str st "COMPLETE"); [reflexivity | discriminate].
  - fold (attempt rt w generation_id k). rewrite Hc. intros images' [= <-]. exact Hu.
  - destruct (generate_poll_raise rt w req generation_id k e Hjob Hk Hp He)
      as [H1 H2].
    split; [exists e; exact H1 | exact H2].
Qed.

Lemma generate_complete_without_url_witness :
  (exists e,
     result (generate Fixture.rt (Fixture.remote 0 [JObj [("id", JStr "i-1")]])
               (Fixture.post Fixture.doge))
       = inr (api_failure Fixture.rt e)) /\
  polls (trace (generate Fixture.rt (Fixture.remote 0 [JObj [("id", JStr "i-1")]])
                  (Fixture.post Fixture.doge))) = 1.
Proof.
  apply (generate_complete_without_url Fixture.rt
           (Fixture.remote 0 [JObj [("id", JStr "i-1")]])
           (Fixture.post Fixture.doge) (JStr "g-1") 1
           (JArr [JObj [("id", JStr "i-1")]])).
  - reflexivity.
  - lia.
  - intros j Hj. lia.
  - reflexivity.
  - reflexivity.
Defined.

(** ** What the handler does not look at *)

Section Views.

Variable rt : runtime.
Variables w1 w2 : world.
Hypothesis Hsame : same_views w1 w2.

Lemma poll_attempt_same_views (generation_id : json) (n : nat) :
  poll_attempt rt w1 generation_id n = poll_attempt rt w2 generation_id n.
Proof.
  destruct Hsame as [_ Hget]. specialize (Hget n (status_call rt generation_id)).
  unfold poll_attempt. rewrite !session_get_eq.
  destruct (on_get w1 n (status_call rt generation_id)) as [e1|r1];
    destruct (on_get w2 n (status_call rt generation_id)) as [e2|r2];
    simpl in Hget; try discriminate.
  - injection Hget as ->. reflexivity.
  - injection Hget as Hs Hj. rewrite !bind_ok, Hs.
    rewrite Hs in Hj.
    destruct (Z.eqb (cr_status r2) 200); [|reflexivity].
    injection Hj as ->. reflexivity.
Qed.

Lemma poll_loop_same_views (generation_id : json) (attempts : list nat) :
  poll_loop rt w1 generation_id attempts = poll_loop rt w2 generation_id attempts.
Proof.
  induction attempts as [|n rest IH]; [reflexivity|].
  change (poll_loop rt w1 generation_id (n :: rest))
    with (bind (poll_attempt rt w1 generation_id n)
            (fun returned =>
               match returned with
               | Some r => ret r
               | None => bind (sleep 1) (fun _ => poll_loop rt w1 generation_id rest)
               end)).
  change (poll_loop rt w2 generation_id (n :: rest))
    with (bind (poll_attempt rt w2 generation_id n)
            (fun returned =>
               match returned with
               | Some r => ret r
               | None => bind (sleep 1) (fun _ => poll_loop rt w2 generation_id rest)
               end)).
  rewrite poll_attempt_same_views.
  destruct (poll_attempt rt w2 generation_id n) as [t [e|[r|]]]; try reflexivity.
  rewrite !bind_ok. unfold sleep. rewrite !bind_emit, IH. reflexivity.
Qed.

Lemma call_api_same_views (p : string) : call_api rt w1 p = call_api rt w2 p.
Proof.
  destruct Hsame as [Hpost _]. specialize (Hpost (submit_call rt p)).
  unfold call_api. rewrite !session_post_eq.
  destruct (on_post w1 (submit_call rt p)) as [e1|r1];
    destruct (on_post w2 (submit_call rt p)) as [e2|r2];
    simpl in Hpost; try discriminate.
  - injection Hpost as ->. reflexivity.
  - injection Hpost as Hs Ht. rewrite !bind_ok, Hs, Ht.
    destruct (cr_text r2) as [e|text]; [reflexivity|].
    rewrite !bind_lift_ok.
    destruct (negb (Z.eqb (cr_status r2) 200)); [reflexivity|].
    destruct (json_loads rt text) as [e|data]; [reflexivity|].
    rewrite !bind_lift_ok.
    destruct (getitem data "sdGenerationJob") as [e|job]; [reflexivity|].
    rewrite !bind_lift_ok.
    destruct (getitem job "generationId") as [e|generation_id]; [reflexivity|].
    rewrite !bind_lift_ok, poll_loop_same_views. reflexivity.
Qed.

End Views.

(** X14.  [generate] reads of the remote's answers only the status and the
    text of the submission response and, of each status answer, the status
    and -- under status 200 only -- the decoded body.  Two remotes that agree
    on those give the same response and the same trace; in particular the
    body of a non-200 status answer is never looked at. *)
Theorem generate_reads_only_views
    (rt : runtime) (w1 w2 : world) (req : request) :
  same_views w1 w2 ->
  generate rt w1 req = generate rt w2 req.
Proof.
  intros Hsame.
  destruct (req_json req) as [e|data] eqn:Hb.
  - unfold generate. rewrite Hb. reflexivity.
  - destruct data; try (unfold generate; rewrite Hb; reflexivity).
    rewrite (generate_object rt w1 req fields Hb), (generate_object rt w2 req fields Hb).
    rewrite (call_api_same_views rt w1 w2 Hsame). reflexivity.
Qed.

Lemma generate_reads_only_views_witness :
  generate Fixture.rt (Fixture.busy 503) (Fixture.post Fixture.doge)
  = generate Fixture.rt
      {| index_html := inl (RuntimeFault "missing");
         on_post := fun _ =>
           inr {| cr_status := 200; cr_text := inr Fixture.job_text;
                  cr_json := inl (RuntimeFault "never decoded") |};
         on_get := fun _ _ =>
           inr {| cr_status := 503; cr_text := inl (RuntimeFault "never read");
                  cr_json := inl (RuntimeFault "never decoded") |} |}
      (Fixture.post Fixture.doge).
Proof.
  apply (generate_reads_only_views Fixture.rt (Fixture.busy 503)).
  split; intros; reflexivity.
Defined.

(** X15.  Of the request, [generate] reads only the three body fields
    idea, generatedName and artStyle: two requests whose bodies are JSON
    objects agreeing on these three keys get the same response and cause the
    same outbound requests, whatever else differs (method, path, any other
    field). *)
Theorem generate_reads_three_fields
    (rt : runtime) (w : world) (req1 req2 : request)
    (fields1 fields2 : list (string * json)) :
  req_json req1 = inr (JObj fields1) ->
  req_json req2 = inr (JObj fields2) ->
  assoc "idea" fields1 = assoc "idea" fields2 ->
  assoc "generatedName" fields1 = assoc "generatedName" fields2 ->
  assoc "artStyle" fields1 = assoc "artStyle" fields2 ->
  generate rt w req1 = generate rt w req2.
Proof.
  intros H1 H2 Hi Hg Hs.
  rewrite (generate_object rt w req1 fields1 H1), (generate_object rt w req2 fields2 H2).
  unfold composed_prompt, subject_name, idea_of, art_style_of.
  rewrite Hi, Hg, Hs. reflexivity.
Qed.

Lemma generate_reads_three_fields_witness :
  generate Fixture.rt (Fixture.remote 1 [Fixture.image]) (Fixture.post Fixture.doge)
  = generate Fixture.rt (Fixture.remote 1 [Fixture.image])
      {| req_method := "PUT"; req_path := "/elsewhere";
         req_json := inr (JObj (("seed", JInt 7) :: Fixture.doge)) |}.
Proof.
  apply (generate_reads_three_fields Fixture.rt (Fixture.remote 1 [Fixture.image])
           (Fixture.post Fixture.doge)
           {| req_method := "PUT"; req_path := "/elsewhere";
              req_json := inr (JObj (("seed", JInt 7) :: Fixture.doge)) |}
           Fixture.doge (("seed", JInt 7) :: Fixture.doge));
    reflexivity.
Defined.

(** X16.  An artStyle outside the style set -- any string that is not one
    of the six keys, or null, a boolean or a number -- is treated exactly
    like "pixel": with the same idea and generatedName, such a request gets
    the same response and causes the same outbound requests as one that asks
    for "pixel" or leaves artStyle out. *)
Theorem generate_unknown_style_is_pixel
    (rt : runtime) (w : world) (req1 req2 : request)
    (fields1 fields2 : list (string * json)) :
  req_json req1 = inr (JObj fields1) ->
  req_json req2 = inr (JObj fields2) ->
  assoc "idea" fields1 = assoc "idea" fields2 ->
  assoc "generatedName" fields1 = assoc "generatedName" fields2 ->
  hashable (art_style_of fields1) = true ->
  in_style_set (art_style_of fields1) = false ->
  art_style_of fields2 = JStr "pixel" ->
  generate rt w req1 = generate rt w req2.
Proof.
  intros H1 H2 Hi Hg Hh Hout Hpx.
  rewrite (generate_object rt w req1 fields1 H1), (generate_object rt w req2 fields2 H2).
  assert (style_descriptor (art_style_of fields1) = style_descriptor (art_style_of fields2))
    as Hd.
  { rewrite Hpx. revert Hout. unfold style_descriptor, in_style_set.
    destruct (art_style_of fields1); try reflexivity.
    unfold ART_STYLE_PROMPTS. cbn [assoc existsb fst].
    repeat (destruct (String.eqb s _); [discriminate|]). reflexivity. }
  unfold composed_prompt, subject_name, idea_of.
  rewrite Hi, Hg, Hd, Hh, Hpx. reflexivity.
Qed.

Lemma generate_unknown_style_is_pixel_witness :
  generate Fixture.rt (Fixture.busy 200)
    (Fixture.post [("idea", JStr "doge"); ("artStyle", JStr "vaporwave")])
  = generate Fixture.rt (Fixture.busy 200) (Fixture.post [("idea", JStr "doge")]).
Proof.
  apply (generate_unknown_style_is_pixel Fixture.rt (Fixture.busy 200)
           (Fixture.post [("idea", JStr "doge"); ("artStyle", JStr "vaporwave")])
           (Fixture.post [("idea", JStr "doge")])
           [("idea", JStr "doge"); ("artStyle", JStr "vaporwave")]
           [("idea", JStr "doge")]);
    reflexivity.
Defined.

(** X17.  When generatedName is present and truthy, idea only has to be
    truthy: two requests with the same generatedName and artStyle and any two
    truthy ideas get the same response and cause the same outbound requests
    (the idea text does not reach the prompt). *)
Theorem generate_generated_name_wins
    (rt : runtime) (w : world) (req1 req2 : request)
    (fields1 fields2 : list (string * json)) (name : json) :
  req_json req1 = inr (JObj fields1) ->
  req_json req2 = inr (JObj fields2) ->
  assoc "generatedName" fields1 = Some name ->
  assoc "generatedName" fields2 = Some name ->
  py_truthy name = true ->
  py_truthy (idea_of fields1) = true ->
  py_truthy (idea_of fields2) = true ->
  assoc "artStyle" fields1 = assoc "artStyle" fields2 ->
  generate rt w req1 = generate rt w req2.
Proof.
  intros H1 H2 Hg1 Hg2 Hn Hi1 Hi2 Hs.
  rewrite (generate_object rt w req1 fields1 H1), (generate_object rt w req2 fields2 H2).
  unfold composed_prompt, subject_name, art_style_of.
  rewrite Hi1, Hi2, Hg1, Hg2, Hn, Hs. reflexivity.
Qed.

Lemma generate_generated_name_wins_witness :
  generate Fixture.rt (Fixture.busy 200)
    (Fixture.post [("idea", JStr "a dog"); ("generatedName", JStr "DogeMax")])
  = generate Fixture.rt (Fixture.busy 200)
      (Fixture.post [("idea", JInt 7); ("generatedName", JStr "DogeMax")]).
Proof.
  apply (generate_generated_name_wins Fixture.rt (Fixture.busy 200)
           (Fixture.post [("idea", JStr "a dog"); ("generatedName", JStr "DogeMax")])
           (Fixture.post [("idea", JInt 7); ("generatedName", JStr "DogeMax")])
           [("idea", JStr "a dog"); ("generatedName", JStr "DogeMax")]
           [("idea", JInt 7); ("generatedName", JStr "DogeMax")]
           (JStr "DogeMax"));
    reflexivity.
Defined.

(** ** The middleware and the routes *)




Lemma cors_middleware_eq (handler : request -> M response) (req : request)
    (t : list event) (o : exn + response) :
  req_method req <> "OPTIONS" ->
  handler req = (t, o) ->
  cors_middleware handler req =
    (t, match o with inl e => inl e | inr r => inr (with_cors r) end).
Proof.
  intros Hm Hh. unfold cors_middleware.
  destruct (String.eqb_spec (req_method req) "OPTIONS") as [E|_]; [contradiction|].
  rewrite Hh. destruct o as [e|r]; [reflexivity|].
  rewrite bind_ok. simpl. rewrite app_nil_r. reflexivity.
Qed.



Lemma app_routed (rt : runtime) (w : world) (req : request)
    (handler : request -> M response) (t : list event) (r : response) :
  req_method req <> "OPTIONS" ->
  resolve rt w req = handler ->
  handler req = (t, inr r) ->
  app rt w req = (with_cors r, t).
Proof.
  intros Hm Hr Hh. unfold app. rewrite Hr.
  rewrite (cors_middleware_eq handler req t (inr r) Hm Hh). reflexivity.
Qed.

Ltac route req Hm Hp :=
  unfold resolve; rewrite Hm, Hp; reflexivity.

(** X19.  GET / answers with the text of index.html as text/html with
    status 200; when the file cannot be read it answers 500 text/plain with
    the text of the exception.  Either way the three CORS headers are set and
    nothing is sent to the remote. *)
Theorem app_serves_index (rt : runtime) (w : world) (req : request) :
  req_method req = "GET" ->
  req_path req = "/" ->
  app rt w req =
    (match index_html w with
     | inr text =>
         {| status := 200; content_type := "text/html";
            headers := cors_headers; resp_body := TextBody text |}
     | inl e =>
         {| status := 500; content_type := "text/plain";
            headers := cors_headers; resp_body := TextBody (exn_str rt e) |}
     end, []).
Proof.
  intros Hm Hp.
  assert (req_method req <> "OPTIONS") as Hno by (rewrite Hm; discriminate).
  assert (resolve rt w req = serve_html rt w) as Hr by route req Hm Hp.
  destruct (index_html w) as [e|text] eqn:Hi.
  - rewrite (app_routed rt w req _ [] (web_Response (exn_str rt e) 500 "text/plain")
               Hno Hr); [reflexivity|].
    unfold serve_html. rewrite Hi. reflexivity.
  - rewrite (app_routed rt w req _ [] (web_Response text 200 "text/html") Hno Hr);
      [reflexivity|].
    unfold serve_html. rewrite Hi. reflexivity.
Qed.

Lemma app_serves_index_witness :
  app Fixture.rt (Fixture.submitting (inl (RuntimeFault "down"))) (Fixture.get "/")
  = (match index_html (Fixture.submitting (inl (RuntimeFault "down"))) with
     | inr text =>
         {| status := 200; content_type := "text/html";
            headers := cors_headers; resp_body := TextBody text |}
     | inl e =>
         {| status := 500; content_type := "text/plain";
            headers := cors_headers; resp_body := TextBody (exn_str Fixture.rt e) |}
     end, []).
Proof.
  apply (app_serves_index Fixture.rt (Fixture.submitting (inl (RuntimeFault "down")))
           (Fixture.get "/"));
    reflexivity.
Defined.

(** X20.  GET /ping always gives the same response -- status 200, the
    JSON body [{"status": "ok", "message": "Server is running"}] and the
    three CORS headers -- whatever the request body, the file system and the
    remote are, and sends nothing to the remote. *)
Theorem app_ping (rt : runtime) (w : world) (req : request) :
  req_method req = "GET" ->
  req_path req = "/ping" ->
  app rt w req =
    ({| status := 200; content_type := "application/json";
        headers := cors_headers;
        resp_body :=
          JsonBody (JObj [("status", JStr "ok");
                          ("message", JStr "Server is running")]) |}, []).
Proof.
  intros Hm Hp.
  assert (req_method req <> "OPTIONS") as Hno by (rewrite Hm; discriminate).
  assert (resolve rt w req = ping) as Hr by route req Hm Hp.
  rewrite (app_routed rt w req _ []
             (json_response
                (JObj [("status", JStr "ok"); ("message", JStr "Server is running")])
                200) Hno Hr); reflexivity.
Qed.

Lemma app_ping_witness :
  app Fixture.rt (Fixture.busy 200) (Fixture.get "/ping") =
    ({| status := 200; content_type := "application/json";
        headers := cors_headers;
        resp_body :=
          JsonBody (JObj [("status", JStr "ok");
                          ("message", JStr "Server is running")]) |}, []).
Proof.
  apply (app_ping Fixture.rt (Fixture.busy 200) (Fixture.get "/ping"));
    reflexivity.
Defined.

(** X21.  POST /api/test always gives status 200 with the JSON body
    [{"status": "success", "message": "Test successful"}] and the three CORS
    headers; the request body is not read and nothing is sent to the
    remote. *)
Theorem app_test (rt : runtime) (w : world) (req : request) :
  req_method req = "POST" ->
  req_path req = "/api/test" ->
  app rt w req =
    ({| status := 200; content_type := "application/json";
        headers := cors_headers;
        resp_body :=
          JsonBody (JObj [("status", JStr "success");
                          ("message", JStr "Test successful")]) |}, []).
Proof.
  intros Hm Hp.
  assert (req_method req <> "OPTIONS") as Hno by (rewrite Hm; discriminate).
  assert (resolve rt w req = test) as Hr by route req Hm Hp.
  rewrite (app_routed rt w req _ []
             (json_response
                (JObj [("status", JStr "success"); ("message", JStr "Test successful")])
                200) Hno Hr); reflexivity.
Qed.

Lemma app_test_witness :
  app Fixture.rt (Fixture.busy 200)
    {| req_method := "POST"; req_path := "/api/test";
       req_json := inl (RuntimeFault "not json") |} =
    ({| status := 200; content_type := "application/json";
        headers := cors_headers;
        resp_body :=
          JsonBody (JObj [("status", JStr "success");
                          ("message", JStr "Test successful")]) |}, []).
Proof.
  apply (app_test Fixture.rt (Fixture.busy 200)
           {| req_method := "POST"; req_path := "/api/test";
              req_json := inl (RuntimeFault "not json") |});
    reflexivity.
Defined.

(** X22.  POST /api/generate through the application is [generate] plus
    the CORS headers: the same effects, and the handler's response with the
    same status, content type and body and exactly the three CORS headers. *)
Theorem app_generate (rt : runtime) (w : world) (req : request) :
  req_method req = "POST" ->
  req_path req = "/api/generate" ->
  exists r,
    result (generate rt w req) = inr r /\
    app rt w req =
      ({| status := status r; content_type := content_type r;
          headers := cors_headers; resp_body := resp_body r |},
       trace (generate rt w req)).
Proof.
  intros Hmeth Hpath.
  assert (req_method req <> "OPTIONS") as Hno by (rewrite Hmeth; discriminate).
  assert (resolve rt w req = generate rt w) as Hroute by route req Hmeth Hpath.
  assert (exists r, result (generate rt w req) = inr r /\ headers r = [])
    as (r & Hres & Hh).
  { run_cases rt w req; rewrite Hrun; eexists; split; reflexivity. }
  exists r. split; [exact Hres|].
  destruct (generate rt w req) as [t o] eqn:Hg.
  unfold result in Hres. cbn [snd] in Hres. subst o.
  rewrite (app_routed rt w req _ t r Hno Hroute Hg).
  unfold with_cors, with_header. cbn [status content_type resp_body headers].
  rewrite Hh. reflexivity.
Qed.

Lemma app_generate_witness :
  exists r,
    result (generate Fixture.rt (Fixture.remote 0 [Fixture.image])
              (Fixture.post Fixture.doge)) = inr r /\
    app Fixture.rt (Fixture.remote 0 [Fixture.image]) (Fixture.post Fixture.doge) =
      ({| status := status r; content_type := content_type r;
          headers := cors_headers; resp_body := resp_body r |},
       trace (generate Fixture.rt (Fixture.remote 0 [Fixture.image])
                (Fixture.post Fixture.doge))).
Proof.
  apply (app_generate Fixture.rt (Fixture.remote 0 [Fixture.image])
           (Fixture.post Fixture.doge));
    reflexivity.
Defined.
